(** * GInCovPipe: phi per bin

    A shallow embedding of [scripts/phi/binning_routines.py]: the phi
    estimator's guards ([optim]), the per-bin attribute extractor
    ([infer_bin_attributes]), the two binners ([binning_equal_days],
    [binning_equal_size]) and the aggregation ([calculate_phi_per_bin]).

    Conventions of the embedding.
    - A Python [int] is a [Z].  A value of the column [t] is an [option Z]:
      [None] is the missing value (NaN); every comparison with it is false.
      pandas holds a column without a missing value as int64: what its
      own [min] and [max] return is a numpy int64, whose arithmetic wraps
      around ([wrap64]), while Python's builtin [min] and [max] hand out
      Python integers.  A column with a missing value is held as float64;
      its values are taken as the integers they stand for, which they are
      exactly below [2 ** 53] in magnitude.
    - A float is NaN, an infinity or a number, carried as a rational.  The
      mean of [t], which [round] turns into the day of the bin, is rounded
      to binary64 ([fl64]) as the division of the sum by the count rounds
      it; the sum itself is exact in binary64 as long as the magnitudes of
      the values add up to less than [2 ** 53] ([sum_fits_float64]).  The
      rates and the variance are kept exact: their rounding is left out of
      the model.
    - What is printed on the way is left out.
    - A raised exception and a loop that has not finished within the given
      number of iterations are outcomes of their own ([Raise], [Timeout]).
    - A data frame is a list of rows, each with its index label. *)

From Stdlib Require Import String Ascii DecimalString.
From Stdlib Require Import ZArith QArith Qround Qabs Bool Lia Lqa.
From Stdlib Require Import List Permutation Sorted.
Import ListNotations.

Open Scope Z_scope.

(** ** Outcomes of a computation *)

Inductive exn : Type := ValueError | KeyError.

Inductive outcome (A : Type) : Type :=
| Ret (a : A)
| Raise (e : exn)
| Timeout.

Arguments Ret {A} a.
Arguments Raise {A} e.
Arguments Timeout {A}.

Definition bind {A B : Type} (m : outcome A) (k : A -> outcome B) : outcome B :=
  match m with
  | Ret a => k a
  | Raise e => Raise e
  | Timeout => Timeout
  end.

Declare Scope outcome_scope.
Delimit Scope outcome_scope with outcome.
Notation "x <- m ;; k" := (bind m (fun x => k))
  (at level 61, m at next level, right associativity) : outcome_scope.
Open Scope outcome_scope.

(** [for x in xs: acc = pd.concat([acc, f(x)])], the frames in order. *)
Fixpoint for_each {A B : Type} (f : A -> outcome (list B)) (xs : list A)
  : outcome (list B) :=
  match xs with
  | [] => Ret []
  | x :: xs' =>
      ys <- f x ;;
      zs <- for_each f xs' ;;
      Ret (ys ++ zs)
  end.

(** ** Values of the column [t] *)

Definition tval : Type := option Z.

Definition t_lt (a b : tval) : bool :=
  match a, b with Some x, Some y => x <? y | _, _ => false end.
Definition t_gt (a b : tval) : bool := t_lt b a.
Definition t_le (a b : tval) : bool :=
  match a, b with Some x, Some y => x <=? y | _, _ => false end.
Definition t_ge (a b : tval) : bool := t_le b a.
Definition t_eq (a b : tval) : bool :=
  match a, b with Some x, Some y => x =? y | _, _ => false end.
Definition t_add (a : tval) (k : Z) : tval := option_map (fun x => x + k) a.

(** Python's builtin [min] and [max] over an iterable: the first item is
    kept until a later one compares strictly below (above) it, so a leading
    NaN is returned as it is and a later one is never selected. *)
Fixpoint min_from (cur : tval) (l : list tval) : tval :=
  match l with
  | [] => cur
  | x :: l' => min_from (if t_lt x cur then x else cur) l'
  end.

Fixpoint max_from (cur : tval) (l : list tval) : tval :=
  match l with
  | [] => cur
  | x :: l' => max_from (if t_gt x cur then x else cur) l'
  end.

Definition py_min (l : list tval) : outcome tval :=
  match l with
  | [] => Raise ValueError
  | x :: l' => Ret (min_from x l')
  end.

Definition py_max (l : list tval) : outcome tval :=
  match l with
  | [] => Raise ValueError
  | x :: l' => Ret (max_from x l')
  end.

(** [Series.dropna()] on a column of [t]. *)
Fixpoint dropna_t (l : list tval) : list Z :=
  match l with
  | [] => []
  | Some x :: l' => x :: dropna_t l'
  | None :: l' => dropna_t l'
  end.

(** ** Floats *)

Inductive pyfloat : Type :=
| NaN
| Inf (negative : bool)
| Num (q : Q).

Definition is_nan (x : pyfloat) : bool :=
  match x with NaN => true | _ => false end.

(** [==], [<=] and [<]; with a NaN on either side they are false. *)
Definition f_eq (a b : pyfloat) : bool :=
  match a, b with
  | Num x, Num y => Qeq_bool x y
  | Inf s, Inf s' => Bool.eqb s s'
  | _, _ => false
  end.

Definition f_le (a b : pyfloat) : bool :=
  match a, b with
  | NaN, _ | _, NaN => false
  | Inf true, _ | _, Inf false => true
  | Inf false, _ | _, Inf true => false
  | Num x, Num y => Qle_bool x y
  end.

Definition f_lt (a b : pyfloat) : bool :=
  match a, b with
  | NaN, _ | _, NaN => false
  | _, _ => negb (f_le b a)
  end.

Definition f_ge (a b : pyfloat) : bool := f_le b a.
Definition f_gt (a b : pyfloat) : bool := f_lt b a.

(** Python's [round] of a float to an [int]: to nearest, ties to even. *)
Definition py_round (q : Q) : Z :=
  let f := Qfloor q in
  match Qcompare (q - inject_Z f) (1 # 2) with
  | Lt => f
  | Gt => f + 1
  | Eq => if Z.even f then f else f + 1
  end.

(** ** Machine numbers *)

(** numpy's int64: a sum or a difference is reduced into
    [[-2 ** 63, 2 ** 63)]. *)
Definition wrap64 (z : Z) : Z := (z + 2 ^ 63) mod 2 ^ 64 - 2 ^ 63.

(** [2 ** e] for an integer [e] of either sign. *)
Definition pow2 (e : Z) : Q :=
  if 0 <? e then inject_Z (2 ^ e) else / inject_Z (2 ^ (- e)).

(** The exponent of the last place of [q <> 0] in binary64, the [e] with
    [2 ** 52 <= |q| / 2 ** e < 2 ** 53]: the difference of the binary
    logarithms of numerator and denominator is it or one above it. *)
Definition ulp_exp (q : Q) : Z :=
  let e0 := Z.log2 (Z.abs (Qnum q)) - Z.log2 (Zpos (Qden q)) - 52 in
  if Qle_bool (inject_Z (2 ^ 52) * pow2 e0) (Qabs q) then e0 else e0 - 1.

(** The binary64 number nearest to [q], ties to the even significand.  The
    exponent range is left out: the quotients rounded here, an int64 sum
    over a count, are far inside it. *)
Definition fl64 (q : Q) : Q :=
  if Qeq_bool q 0 then 0%Q
  else let e := ulp_exp q in (inject_Z (py_round (q / pow2 e)) * pow2 e)%Q.

(** A standard deviation is kept through the quantity under the root:
    [SdSqrt v] is the float [sqrt v], with [v] in lowest terms. *)
Inductive sd_value : Type :=
| SdNaN
| SdSqrt (v : Q).

Definition sd_is_nan (x : sd_value) : bool :=
  match x with SdNaN => true | SdSqrt _ => false end.

(** ** pandas reductions over a column of [t] (NaN skipped) *)

Definition Zsum (l : list Z) : Z := fold_right Z.add 0 l.

Definition pd_min (l : list tval) : tval :=
  match dropna_t l with
  | [] => None
  | x :: l' => Some (fold_right Z.min x l')
  end.

Definition pd_max (l : list tval) : tval :=
  match dropna_t l with
  | [] => None
  | x :: l' => Some (fold_right Z.max x l')
  end.

Definition Qmean (l : list Z) : Q :=
  (inject_Z (Zsum l) / inject_Z (Z.of_nat (length l)))%Q.

(** [Series.mean()]: the sum of the valid values over their count, a
    float64. *)
Definition pd_mean (l : list tval) : option Q :=
  match dropna_t l with
  | [] => None
  | v => Some (fl64 (Qmean v))
  end.

(** The first and the last valid value are less than [2 ** 63] days apart:
    their difference plus one does not wrap around. *)
Definition span_fits_int64 (l : list tval) : bool :=
  match pd_min l, pd_max l with
  | Some from_t, Some to_t => to_t - from_t + 1 <? 2 ^ 63
  | _, _ => true
  end.

(** The magnitudes of the valid values add up to less than [2 ** 53]: every
    partial sum is an integer that binary64 holds exactly, in whatever
    order the values are added. *)
Definition sum_fits_float64 (l : list tval) : bool :=
  Zsum (map Z.abs (dropna_t l)) <? 2 ^ 53.

Definition Qsum (l : list Q) : Q := fold_right Qplus 0%Q l.

(** [Series.std()], [ddof = 1]: the mean of the valid values, the squared
    deviations from it, their sum over [count - 1]; NaN when fewer than two
    valid values are left. *)
Definition pd_var (v : list Z) : Q :=
  let avg := Qmean v in
  let sqr := map (fun x => ((avg - inject_Z x) * (avg - inject_Z x))%Q) v in
  (Qsum sqr / inject_Z (Z.of_nat (length v) - 1))%Q.

Definition pd_std (l : list tval) : sd_value :=
  let v := dropna_t l in
  if (Z.of_nat (length v) <=? 1) then SdNaN else SdSqrt (Qred (pd_var v)).

(** The sample variance by the sums of the values and of their squares:
    [(sum x^2 - (sum x)^2 / n) / (n - 1)]. *)
Definition sample_variance (v : list Z) : Q :=
  let n := inject_Z (Z.of_nat (length v)) in
  let s1 := inject_Z (Zsum v) in
  let s2 := inject_Z (Zsum (map (fun x => x * x) v)) in
  ((s2 - s1 * s1 / n) / inject_Z (Z.of_nat (length v) - 1))%Q.

(** ** Strings *)

(** [str] of an [int]. *)
Definition str (z : Z) : string := NilZero.string_of_int (Z.to_int z).

(** The characters [str.split()] treats as separators, a character being
    a code point below 256: the ASCII white space, the separators
    [0x1c] to [0x1f], NEL ([0x85]) and the no-break space ([0xa0]). *)
Definition is_space (c : ascii) : bool :=
  let n := nat_of_ascii c in
  ((9 <=? n)%nat && (n <=? 13)%nat) || ((28 <=? n)%nat && (n <=? 32)%nat)
  || (n =? 133)%nat || (n =? 160)%nat.

(** [s.split()]: the maximal runs of non-space characters.  [cur] is the
    run being read, reversed. *)
Fixpoint split_from (cur : list ascii) (s : string) : list string :=
  let flush (rest : list string) :=
    match cur with
    | [] => rest
    | _ => string_of_list_ascii (rev cur) :: rest
    end in
  match s with
  | EmptyString => flush []
  | String c s' =>
      if is_space c then flush (split_from [] s') else split_from (c :: cur) s'
  end.

Definition split (s : string) : list string := split_from [] s.

(** The [snvs] of a sequence without mutations: the empty string. *)
Definition reference : string := EmptyString.

(** [len(set(xs))] for strings. *)
Definition count_distinct (l : list string) : Z :=
  Z.of_nat (length (nodup string_dec l)).

(** ** Tables *)

(** A row of the input table: [t] (day offset), [date] (a day number) and
    [snvs] (the mutations, separated by white space). *)
Module Seq.
Record row : Type := mk { t : tval; date : option Z; snvs : string }.
End Seq.

(** A data frame of sequences: the rows with their index labels. *)
Definition DataFrame : Type := list (nat * Seq.row).

Definition col_t (df : DataFrame) : list tval := map (fun r => Seq.t (snd r)) df.
Definition col_snvs (df : DataFrame) : list string :=
  map (fun r => Seq.snvs (snd r)) df.
Definition labels (df : DataFrame) : list nat := map fst df.

Definition len {A : Type} (l : list A) : Z := Z.of_nat (length l).

(** The input table as a frame, under the default index [0, 1, ...]: a row
    is identified by its position. *)
Definition frame_of (table : list Seq.row) : DataFrame :=
  combine (seq 0 (length table)) table.

(** [df.reset_index()]: the rows are labelled anew by their position. *)
Definition reset_index (df : DataFrame) : DataFrame :=
  combine (seq 0 (length df)) (map snd df).

(** [df.iloc[a:b]], a Python slice: a negative bound counts from the end and
    both bounds are clipped to the frame. *)
Definition slice_bound (n i : Z) : Z :=
  if i <? 0 then Z.max (i + n) 0 else Z.min i n.

Definition iloc {A : Type} (df : list A) (a b : Z) : list A :=
  let a' := slice_bound (len df) a in
  let b' := slice_bound (len df) b in
  firstn (Z.to_nat (b' - a')) (skipn (Z.to_nat a') df).

(** numpy's order on floats, which sorts NaN last. *)
Definition np_less (x v : tval) : bool :=
  match x, v with
  | Some a, Some b => a <? b
  | Some _, None => true
  | None, _ => false
  end.

(** [a.searchsorted(v)] ([side='left']), numpy's bisection: the bounds
    [min_idx] and [max_idx] close in on the insertion point, the middle
    element being compared with [v]; [fuel] bounds the number of halvings. *)
Fixpoint bisect_left (fuel : nat) (a : list tval) (v : tval)
    (min_idx max_idx : Z) : Z :=
  match fuel with
  | O => min_idx
  | S fuel' =>
      if min_idx <? max_idx then
        let mid_idx := min_idx + Z.shiftr (max_idx - min_idx) 1 in
        match nth_error a (Z.to_nat mid_idx) with
        | Some mid_val =>
            if np_less mid_val v
            then bisect_left fuel' a v (mid_idx + 1) max_idx
            else bisect_left fuel' a v min_idx mid_idx
        | None => min_idx
        end
      else min_idx
  end.

Definition searchsorted (a : list tval) (v : tval) : Z :=
  bisect_left (length a) a v 0 (Z.of_nat (length a)).

(** What numpy specifies of [searchsorted] on a sorted array: the position
    of the first element that is not below [v]. *)
Fixpoint first_not_below (a : list tval) (v : tval) : Z :=
  match a with
  | [] => 0
  | x :: a' => if np_less x v then 1 + first_not_below a' v else 0
  end.

(** The dict [infer_bin_attributes] returns, by key. *)
Module Bin.
Record attrs : Type := mk_attrs {
  t : Z;
  t_sd : sd_value;
  phi : pyfloat;
  sampleSize : Z;
  num_mut : Z;
  daysPerBin : Z;
  haplotypes : Z;
  n_mut_types : Z
}.

(** The dict after [update({"binning": ...})]: a row of a binner's frame. *)
Record row : Type := mk { attributes : attrs; binning : string }.
End Bin.

(** A row of the final table: a binner's row and its [date]. *)
Module Res.
Record row : Type := mk { bin : Bin.row; date : Z }.

Definition phi (r : row) : pyfloat := Bin.phi (Bin.attributes (bin r)).
Definition t_sd (r : row) : sd_value := Bin.t_sd (Bin.attributes (bin r)).
Definition sampleSize (r : row) : Z := Bin.sampleSize (Bin.attributes (bin r)).
End Res.

(** [df.dropna()] on a binner's frame: a row goes when any of its cells is
    NaN; the float columns are [t_sd] and [phi]. *)
Definition has_nan (r : Bin.row) : bool :=
  sd_is_nan (Bin.t_sd (Bin.attributes r)) || is_nan (Bin.phi (Bin.attributes r)).

Definition dropna (df : list Bin.row) : list Bin.row :=
  filter (fun r => negb (has_nan r)) df.

(** [min(table['date'].dropna())]. *)
Fixpoint dropna_date (l : list (option Z)) : list Z :=
  match l with
  | [] => []
  | Some x :: l' => x :: dropna_date l'
  | None :: l' => dropna_date l'
  end.

Definition min_date (table : list Seq.row) : outcome Z :=
  match dropna_date (map Seq.date table) with
  | [] => Raise ValueError
  | x :: l => Ret (fold_left Z.min l x)
  end.

(** [date = to_timedelta(t, 'days') + to_datetime(minDate)]. *)
Definition with_date (minDate : Z) (r : Bin.row) : Res.row :=
  Res.mk r (Bin.t (Bin.attributes r) + minDate).

(** The table is ordered by [t], in numpy's order: ascending, NaN last. *)
Definition np_le (x y : tval) : Prop := np_less y x = false.

Definition ordered_by_t (table : list Seq.row) : Prop :=
  StronglySorted (fun a b => np_le (Seq.t a) (Seq.t b)) table.

Definition key (r : nat * Seq.row) : tval := Seq.t (snd r).

(** The rows of a frame in the window [[a, b]] of [t]. *)
Definition in_window (table : DataFrame) (a b : Z) : DataFrame :=
  filter (fun r => t_ge (Seq.t (snd r)) (Some a) && t_le (Seq.t (snd r)) (Some b))
         table.

(** [n] consecutive windows of [days] days from [from_t] on, those without
    rows left out. *)
Fixpoint windows (table : DataFrame) (days from_t : Z) (n : nat)
  : list DataFrame :=
  match n with
  | O => []
  | S n' =>
      let b := in_window table from_t (from_t + days - 1) in
      match b with [] => [] | _ => [b] end
      ++ windows table days (from_t + days) n'
  end.

(** A frame whose rows are ordered by [t]. *)
Definition sorted_rows (df : DataFrame) : Prop :=
  StronglySorted (fun a b => np_le (key a) (key b)) df.

(** The snapping to a day in [binning_equal_size]: when the window lies on
    the single day [from_t], all the rows of the frame on that day. *)
Definition snap_bin (table : DataFrame) (from_t to_t : tval) (w : DataFrame)
  : DataFrame :=
  if t_eq from_t to_t
  then filter (fun r => t_eq (Seq.t (snd r)) to_t) table
  else w.

(** Each bin lies on earlier days than the next: its rows have a valid [t],
    at most some [z], and no row of the next bin is below [z + 1]. *)
Fixpoint day_separated (bins : list DataFrame) : Prop :=
  match bins with
  | b :: (b' :: _) as rest =>
      (exists z,
         Forall (fun r => exists y, key r = Some y /\ y <= z) b /\
         Forall (fun r => np_less (key r) (Some (z + 1)) = false) b') /\
      day_separated rest
  | _ => True
  end.

(** What the specification asks of the width-based bins: every row with a
    valid [t] is in some bin. *)
Definition covers_valid_rows (table : list Seq.row) (bins : list DataFrame)
  : Prop :=
  forall row, In row (frame_of table) -> Seq.t (snd row) <> None ->
              In row (concat bins).

(** The number of distinct valid [t] in a bin. *)
Definition distinct_t (sub : DataFrame) : nat :=
  length (nodup Z.eq_dec (dropna_t (col_t sub))).

(** The guards of the three estimators: a rate is zero, or the haplotype
    rate is at least the mutation rate. *)
Definition guarded (n_haplo n_mut : pyfloat) : bool :=
  f_eq n_haplo (Num 0) || f_eq n_mut (Num 0) || f_ge n_haplo n_mut.

(** The rate handed to the estimator, [count / d]: a count over the days
    of the bin, a float.  numpy divides by zero without raising: the
    quotient is an infinity, or NaN for [0 / 0]. *)
Definition rate (count d : Z) : pyfloat :=
  if d =? 0 then (if count =? 0 then NaN else Inf (count <? 0))
  else Num (Qred (inject_Z count / inject_Z d)).

(** A sequence without mutations. *)
Definition is_reference (s : string) : bool := String.eqb s reference.


(** ** Instances for the examples *)

(** A minimiser that returns its starting point [x0 = 1]. *)
Definition minimiser_x0 (n_haplo n_mut : pyfloat) : outcome pyfloat :=
  Ret (Num 1).

(** Sorting by insertion, an instance of [sort_values] for the examples:
    [x] goes in front of the first row it is [before]. *)
Fixpoint insert_row (before : Z -> Z -> bool) (x : Res.row) (l : list Res.row)
  : list Res.row :=
  match l with
  | [] => [x]
  | y :: l' =>
      if before (Res.date x) (Res.date y) then x :: l
      else y :: insert_row before x l'
  end.

Definition insertion_sort (before : Z -> Z -> bool) (l : list Res.row)
  : list Res.row :=
  fold_right (insert_row before) [] l.

(** A sequence sampled on day [t], 1 January 2020 being day 0. *)
Definition on_day (t : Z) (snvs : string) : Seq.row :=
  Seq.mk (Some t) (Some (18262 + t)) snvs.

Definition three_days : list Seq.row :=
  [on_day 0 reference; on_day 1 reference; on_day 2 reference].

Definition two_on_day_0 : list Seq.row :=
  [on_day 0 reference; on_day 0 reference; on_day 5 reference].

Definition two_then_one : list Seq.row :=
  [on_day 0 reference; on_day 0 reference; on_day 1 reference; on_day 5 reference].

Definition five_sequences : list Seq.row :=
  [on_day 0 reference; on_day 0 reference; on_day 0 reference; on_day 1 "A23403G";
   on_day 2 "A23403G C241T"].

(** A table that is not ordered by [t]. *)
Definition out_of_order : list Seq.row :=
  [on_day 0 reference; on_day 0 reference; on_day 5 reference; on_day 0 reference;
   on_day 9 reference; on_day 9 reference; on_day 9 reference; on_day 9 reference].

Definition same_day_bin : DataFrame :=
  [(0%nat, on_day 3 reference); (1%nat, on_day 3 "C241T")].

(** Three sequences of one haplotype that is not the reference. *)
Definition one_haplotype : list Seq.row :=
  [on_day 0 "C241T"; on_day 1 "C241T"; on_day 2 "C241T"].

(** A table ordered by [t] that starts two days before day 0. *)
Definition before_day_0 : list Seq.row :=
  [on_day (-2) reference; on_day (-1) reference; on_day 0 reference;
   on_day 1 reference; on_day 3 reference].

(** Two sequences without a date. *)
Definition no_date : list Seq.row :=
  [Seq.mk (Some 0) None reference; Seq.mk (Some 1) None reference].

(** The table of the specification's end-to-end example: ten sequences on
    the days 0 to 9, five of them with the mutation [m1]. *)
Definition ten_days : list Seq.row :=
  [on_day 0 reference; on_day 1 "m1"; on_day 2 reference; on_day 3 "m1";
   on_day 4 reference; on_day 5 "m1"; on_day 6 reference; on_day 7 "m1";
   on_day 8 reference; on_day 9 "m1"].

(** Two sequences [2 ** 63] days apart, both within int64. *)
Definition far_apart : list Seq.row :=
  [on_day (- 2 ^ 62) reference; on_day (2 ^ 62) reference].

(** Three sequences of one mutated haplotype, [2 ** 63] days from the
    first to the last. *)
Definition far_apart_mutated : list Seq.row :=
  [on_day (- 2 ^ 62) "m1"; on_day 0 "m1"; on_day (2 ^ 62) "m1"].

(** A bin of one sequence, on a day that binary64 does not hold. *)
Definition late_day_bin : DataFrame := [(0%nat, on_day (2 ^ 53 + 1) reference)].

(** Two further minimisers, told apart by what they return. *)
Definition minimiser_2 (n_haplo n_mut : pyfloat) : outcome pyfloat :=
  Ret (Num (2 # 1)).

Definition minimiser_3 (n_haplo n_mut : pyfloat) : outcome pyfloat :=
  Ret (Num (3 # 1)).

Section Binning.

(** [optimize.minimize(get_phi, x0=1, method='Nelder-Mead',
    args=(n_haplo, n_mut)).x[0]]: scipy's minimiser on the objective
    [(n_haplo - x * log(1 + n_mut / x)) ** 2], whatever it returns. *)
Variable nelder_mead : pyfloat -> pyfloat -> outcome pyfloat.

(** [df.sort_values(by='date')] with pandas' default [kind='quicksort'].
    The order it leaves the rows in is numpy's; what is used of it below is
    that it rearranges the rows. *)
Variable sort_values : list Res.row -> list Res.row.

Definition optim (n_haplo n_mut : pyfloat) : outcome pyfloat :=
  if f_eq n_haplo (Num 0) || f_eq n_mut (Num 0) then Ret (Num 0)
  else if f_ge n_haplo n_mut then Ret NaN
  else nelder_mead n_haplo n_mut.

(** The same call with [method='L-BFGS-B'], and with
    [method='trust-constr'] under the constraint [x >= 0]. *)
Variable l_bfgs_b : pyfloat -> pyfloat -> outcome pyfloat.
Variable trust_constr : pyfloat -> pyfloat -> outcome pyfloat.

Definition optim_2 (n_haplo n_mut : pyfloat) : outcome pyfloat :=
  if f_eq n_haplo (Num 0) || f_eq n_mut (Num 0) then Ret (Num 0)
  else if f_ge n_haplo n_mut then Ret NaN
  else l_bfgs_b n_haplo n_mut.

Definition optim_3 (n_haplo n_mut : pyfloat) : outcome pyfloat :=
  if f_eq n_haplo (Num 0) || f_eq n_mut (Num 0) then Ret (Num 0)
  else if f_ge n_haplo n_mut then Ret NaN
  else trust_constr n_haplo n_mut.

(** With no valid [t] in the bin, [from_t], [to_t], [d] and the mean are
    NaN and [round] raises.  [from_t] and [to_t] are int64 and so is [d],
    which wraps around; a division by [d = 0] gives an infinity or NaN.
    The weight [w] is computed and not returned. *)
Definition infer_bin_attributes (subsample_table : DataFrame)
  : outcome Bin.attrs :=
  let ts := col_t subsample_table in
  match pd_min ts, pd_max ts, pd_mean ts with
  | Some from_t, Some to_t, Some mean =>
      let d := wrap64 (to_t - from_t + 1) in
      let N_seq := len subsample_table in
      let num_mut :=
        N_seq - len (filter (fun s => String.eqb s reference)
                            (col_snvs subsample_table)) in
      let n_haplos := count_distinct (col_snvs subsample_table) in
      let n_mut_types :=
        count_distinct (flat_map split (col_snvs subsample_table)) in
      let bin_t := py_round mean in
      let bin_t_sd := pd_std ts in
      phi <- optim (rate n_haplos d) (rate num_mut d) ;;
      Ret (Bin.mk_attrs bin_t bin_t_sd phi N_seq num_mut d n_haplos n_mut_types)
  | _, _, _ => Raise ValueError
  end.

(** What a binner does with a bin: extract the attributes, add the label. *)
Definition emit_row (label : string) (subsample_table : DataFrame)
  : outcome Bin.row :=
  phi_per_bin <- infer_bin_attributes subsample_table ;;
  Ret (Bin.mk phi_per_bin label).

(** *** Bins of equal days *)

(** The [while] loop of [binning_equal_days], [emit] being what is done
    with a non-empty bin. *)
Fixpoint equal_days_loop {B : Type} (emit : DataFrame -> outcome B)
    (fuel : nat) (table : DataFrame) (days : Z) (from_t to_t : tval)
  : outcome (list B) :=
  match fuel with
  | O => Timeout
  | S fuel' =>
      max_t <- py_max (col_t table) ;;
      if t_lt to_t max_t then
        let subsample_table :=
          filter (fun r => t_ge (Seq.t (snd r)) from_t
                           && t_le (Seq.t (snd r)) to_t) table in
        new <- match subsample_table with
               | [] => Ret []
               | _ => b <- emit subsample_table ;; Ret [b]
               end ;;
        rest <- equal_days_loop emit fuel' table days
                  (t_add from_t days) (t_add to_t days) ;;
        Ret (new ++ rest)
      else Ret []
  end.

Definition equal_days {B : Type} (emit : DataFrame -> outcome B)
    (fuel : nat) (seq_info_short_table : list Seq.row) (days : Z)
  : outcome (list B) :=
  let table := frame_of seq_info_short_table in
  from_t <- py_min (col_t table) ;;
  let to_t := t_add from_t (days - 1) in
  equal_days_loop emit fuel table days from_t to_t.

Definition binning_equal_days (fuel : nat)
    (seq_info_short_table : list Seq.row) (days : Z) : outcome (list Bin.row) :=
  equal_days (emit_row ("eq_days_" ++ str days)) fuel seq_info_short_table days.

(** The bins themselves, in the order they are formed. *)
Definition equal_days_bins (fuel : nat) (seq_info_short_table : list Seq.row)
    (days : Z) : outcome (list DataFrame) :=
  equal_days (fun b => Ret b) fuel seq_info_short_table days.

(** *** Bins of equal size *)

Fixpoint equal_size_loop {B : Type} (emit : DataFrame -> outcome B)
    (fuel : nat) (table : DataFrame) (s : Z) (from_t to_t : tval)
    (actual_index : Z) : outcome (list B) :=
  match fuel with
  | O => Timeout
  | S fuel' =>
      max_t <- py_max (col_t table) ;;
      if t_lt to_t max_t && (actual_index + s <=? len table) then
        let actual_index := searchsorted (col_t table) from_t in
        let subsample_table :=
          iloc table actual_index (Z.min (actual_index + s) (len table)) in
        to_t <- py_max (col_t subsample_table) ;;
        let subsample_table :=
          if t_eq from_t to_t
          then filter (fun r => t_eq (Seq.t (snd r)) to_t) table
          else subsample_table in
        b <- emit subsample_table ;;
        rest <- equal_size_loop emit fuel' table s (t_add to_t 1) to_t
                  actual_index ;;
        Ret (b :: rest)
      else Ret []
  end.

Definition equal_size {B : Type} (emit : DataFrame -> outcome B)
    (fuel : nat) (seq_info_short_table : list Seq.row) (s : Z)
  : outcome (list B) :=
  let table := reset_index (frame_of seq_info_short_table) in
  equal_size_loop emit fuel table s (Some 0) (Some 0) 0.

Definition binning_equal_size (fuel : nat)
    (seq_info_short_table : list Seq.row) (s : Z) : outcome (list Bin.row) :=
  equal_size (emit_row ("eq_size_" ++ str s)) fuel seq_info_short_table s.

Definition equal_size_bins (fuel : nat) (seq_info_short_table : list Seq.row)
    (s : Z) : outcome (list DataFrame) :=
  equal_size (fun b => Ret b) fuel seq_info_short_table s.

(** *** Aggregation *)

(** The frame before [dropna]: the rows of every width, then of every
    size, in the order of the two lists. *)
Definition concat_results (fuel : nat) (seq_info_short_table : list Seq.row)
    (seqs_per_bin days_per_bin : list Z) : outcome (list Bin.row) :=
  by_days <- for_each (binning_equal_days fuel seq_info_short_table)
               days_per_bin ;;
  by_size <- for_each (binning_equal_size fuel seq_info_short_table)
               seqs_per_bin ;;
  Ret (by_days ++ by_size).

(** A frame that never received a row has no column [t], and reading it
    raises [KeyError]. *)
Definition calculate_phi_per_bin (fuel : nat)
    (seq_info_short_table : list Seq.row) (seqs_per_bin days_per_bin : list Z)
  : outcome (list Res.row) :=
  minDate <- min_date seq_info_short_table ;;
  phi_per_bin_table <-
    concat_results fuel seq_info_short_table seqs_per_bin days_per_bin ;;
  match phi_per_bin_table with
  | [] => Raise KeyError
  | _ =>
      let kept := dropna phi_per_bin_table in
      let dated := map (with_date minDate) kept in
      Ret (sort_values dated)
  end.

(** [sort_values] neither drops nor adds a row. *)
Hypothesis sort_values_perm : forall l, Permutation (sort_values l) l.

(** ** The guards of the estimator *)

Lemma f_gt_zero_not_eq (x : pyfloat) :
  f_gt x (Num 0) = true -> f_eq x (Num 0) = false.
Proof.
  destruct x as [|[|]|q]; simpl; try discriminate; try reflexivity.
  intros H. apply negb_true_iff in H.
  destruct (Qeq_bool q 0) eqn:E; [|reflexivity].
  apply Qeq_bool_iff in E.
  assert (Hle : Qle_bool q 0 = true)
    by (apply Qle_bool_iff; rewrite E; apply Qle_refl).
  congruence.
Qed.

(** C3. When either rate is zero [optim] returns 0; when the haplotype
    rate is at least the mutation rate, both strictly positive, it returns
    NaN.  In both cases it returns: nothing is raised, whatever the
    minimiser would do. *)
Theorem optim_guards (n_haplo n_mut : pyfloat) :
  (f_eq n_haplo (Num 0) = true \/ f_eq n_mut (Num 0) = true ->
   optim n_haplo n_mut = Ret (Num 0)) /\
  (f_ge n_haplo n_mut = true ->
   f_gt n_haplo (Num 0) = true -> f_gt n_mut (Num 0) = true ->
   optim n_haplo n_mut = Ret NaN).
Proof.
  unfold optim. split.
  - intros [H | H]; rewrite H; [reflexivity | now rewrite orb_true_r].
  - intros Hge Hh Hm.
    rewrite (f_gt_zero_not_eq _ Hh), (f_gt_zero_not_eq _ Hm). simpl.
    now rewrite Hge.
Qed.

(** ** The attributes of a bin *)

Lemma bind_Ret_inv {A B : Type} (m : outcome A) (k : A -> outcome B) (b : B) :
  bind m k = Ret b -> exists a, m = Ret a /\ k a = Ret b.
Proof. destruct m; simpl; intros H; try discriminate. eauto. Qed.

Lemma fold_min_le (x : Z) (l : list Z) : fold_right Z.min x l <= x.
Proof. induction l; simpl; lia. Qed.

Lemma fold_max_ge (x : Z) (l : list Z) : x <= fold_right Z.max x l.
Proof. induction l; simpl; lia. Qed.

Lemma nodup_length_le (l : list string) :
  (length (nodup string_dec l) <= length l)%nat.
Proof.
  induction l as [|a l IH]; simpl; [lia|].
  destruct (in_dec string_dec a l); simpl; lia.
Qed.

Lemma dropna_t_In (l : list tval) (z : Z) : In z (dropna_t l) <-> In (Some z) l.
Proof.
  induction l as [|[x|] l IH]; simpl; [tauto| |].
  - rewrite IH. split; intros [H|H]; auto; left; congruence.
  - rewrite IH. split; [auto|]. intros [H|H]; [discriminate|auto].
Qed.

(** What [infer_bin_attributes] returns, field by field. *)
Lemma infer_bin_attributes_Ret (sub : DataFrame) (a : Bin.attrs) :
  infer_bin_attributes sub = Ret a ->
  exists from_t to_t,
    pd_min (col_t sub) = Some from_t /\ pd_max (col_t sub) = Some to_t /\
    Bin.daysPerBin a = wrap64 (to_t - from_t + 1) /\
    Bin.sampleSize a = len sub /\
    Bin.num_mut a =
      len sub - len (filter (fun s => String.eqb s reference) (col_snvs sub)) /\
    Bin.haplotypes a = count_distinct (col_snvs sub) /\
    Bin.t_sd a = pd_std (col_t sub) /\
    optim (rate (Bin.haplotypes a) (Bin.daysPerBin a))
          (rate (Bin.num_mut a) (Bin.daysPerBin a))
      = Ret (Bin.phi a).
Proof.
  unfold infer_bin_attributes.
  destruct (pd_min (col_t sub)) as [from_t|]; [|discriminate].
  destruct (pd_max (col_t sub)) as [to_t|]; [|discriminate].
  destruct (pd_mean (col_t sub)) as [mean|]; [|discriminate].
  intros H. apply bind_Ret_inv in H. destruct H as (phi & Hphi & H).
  injection H as <-. simpl. exists from_t, to_t. repeat split; assumption.
Qed.

(** Without a valid [t] the extractor raises. *)
Lemma infer_bin_attributes_no_t (sub : DataFrame) :
  dropna_t (col_t sub) = [] -> infer_bin_attributes sub = Raise ValueError.
Proof.
  intros H. unfold infer_bin_attributes, pd_min. now rewrite H.
Qed.

(** The extractor returns on every bin with a valid [t], as soon as the
    minimiser does. *)
Lemma infer_bin_attributes_returns (sub : DataFrame) :
  (forall h m, exists x, nelder_mead h m = Ret x) ->
  (exists z, In (Some z) (col_t sub)) ->
  exists a, infer_bin_attributes sub = Ret a.
Proof.
  intros Hnm [z Hz]. apply dropna_t_In in Hz.
  unfold infer_bin_attributes, pd_min, pd_max, pd_mean.
  destruct (dropna_t (col_t sub)) as [|x l]; [contradiction|].
  match goal with |- context [optim ?h ?m] =>
    assert (Ho : exists p, optim h m = Ret p) end.
  { unfold optim.
    match goal with |- context [if ?c then _ else _] => destruct c end; eauto.
    match goal with |- context [if ?c then _ else _] => destruct c end; eauto. }
  destruct Ho as [p Hp]. rewrite Hp. simpl. eauto.
Qed.

(** Inside its range an int64 is the integer itself. *)
Lemma wrap64_id (z : Z) : - 2 ^ 63 <= z < 2 ^ 63 -> wrap64 z = z.
Proof. intros H. unfold wrap64. rewrite Z.mod_small; lia. Qed.

(** The first valid day of a bin is not after the last, and when they are
    less than [2 ** 63] days apart the count of the days does not wrap. *)
Lemma days_no_wrap (l : list tval) (from_t to_t : Z) :
  pd_min l = Some from_t -> pd_max l = Some to_t ->
  from_t <= to_t /\
  (span_fits_int64 l = true ->
   wrap64 (to_t - from_t + 1) = to_t - from_t + 1).
Proof.
  intros Hmin Hmax. unfold span_fits_int64. rewrite Hmin, Hmax.
  assert (Hle : from_t <= to_t).
  { unfold pd_min, pd_max in *.
    destruct (dropna_t l) as [|x v]; [discriminate|].
    injection Hmin as <-. injection Hmax as <-.
    pose proof (fold_min_le x v). pose proof (fold_max_ge x v). lia. }
  split; [exact Hle|]. intros H. apply Z.ltb_lt in H. apply wrap64_id. lia.
Qed.

(** C8, on int64.  For a bin with a valid [t] the extractor returns a row
    as soon as the minimiser returns, and every row it returns has
    [haplotypes <= sampleSize] and [num_mut <= sampleSize]; it has
    [daysPerBin >= 1] when the first and the last day of the bin are less
    than [2 ** 63] days apart, so that their difference does not wrap. *)
Theorem infer_bin_attributes_invariant (sub : DataFrame) :
  ((exists z, In (Some z) (col_t sub)) ->
   (forall h m, exists x, nelder_mead h m = Ret x) ->
   exists a, infer_bin_attributes sub = Ret a) /\
  (forall a, infer_bin_attributes sub = Ret a ->
     (span_fits_int64 (col_t sub) = true -> 1 <= Bin.daysPerBin a) /\
     Bin.haplotypes a <= Bin.sampleSize a /\
     Bin.num_mut a <= Bin.sampleSize a).
Proof.
  split; [intros Hz Hnm; now apply infer_bin_attributes_returns|].
  intros a H. apply infer_bin_attributes_Ret in H.
  destruct H as (from_t & to_t & Hmin & Hmax & Hd & HN & Hm & Hh & _).
  rewrite Hd, HN, Hm, Hh. repeat split.
  - intros Hfit. destruct (days_no_wrap _ _ _ Hmin Hmax) as [Hle Hw].
    rewrite (Hw Hfit). lia.
  - unfold count_distinct, len, col_snvs.
    pose proof (nodup_length_le (map (fun r => Seq.snvs (snd r)) sub)) as Hle.
    rewrite length_map in Hle. lia.
  - unfold len. lia.
Qed.

(** ** The standard deviation of [t] *)

Lemma Qsum_sq_dev (m : Q) (v : list Z) :
  (Qsum (map (fun x => (m - inject_Z x) * (m - inject_Z x)) v)
   == inject_Z (Z.of_nat (length v)) * m * m
      - (2 # 1) * m * inject_Z (Zsum v)
      + inject_Z (Zsum (map (fun x => (x * x)%Z) v)))%Q.
Proof.
  induction v as [|a v IH].
  - simpl. ring.
  - cbn [map Qsum fold_right Zsum length].
    fold (Qsum (map (fun x => (m - inject_Z x) * (m - inject_Z x))%Q v)).
    fold (Zsum v). fold (Zsum (map (fun x => x * x) v)). rewrite IH.
    rewrite Nat2Z.inj_succ. unfold Z.succ.
    rewrite !inject_Z_plus, inject_Z_mult. ring.
Qed.

Lemma pd_var_sample_variance (v : list Z) :
  v <> [] -> (pd_var v == sample_variance v)%Q.
Proof.
  intros Hv. unfold pd_var, sample_variance.
  rewrite Qsum_sq_dev. unfold Qmean.
  assert (Hn : ~ (inject_Z (Z.of_nat (length v)) == 0)%Q).
  { destruct v; [congruence|]. unfold Qeq. simpl. lia. }
  set (n := inject_Z (Z.of_nat (length v))) in *.
  set (S1 := inject_Z (Zsum v)). set (S2 := inject_Z (Zsum (map (fun x => x * x) v))).
  assert (E : (n * (S1 / n) * (S1 / n) - (2 # 1) * (S1 / n) * S1 + S2
               == S2 - S1 * S1 / n)%Q) by (field; exact Hn).
  rewrite E. reflexivity.
Qed.

Lemma pd_std_nan (l : list tval) :
  pd_std l = SdNaN <-> (length (dropna_t l) <= 1)%nat.
Proof.
  unfold pd_std.
  destruct (Z.leb_spec (Z.of_nat (length (dropna_t l))) 1);
    split; intros; try lia; try reflexivity; discriminate.
Qed.

(** C6, as [std] has it.  The [t_sd] of a row is the [std] of the column
    [t] of its bin.  It is NaN exactly when the bin has no row or a single
    row with a valid [t], whatever the number of distinct values among them;
    with two or more such rows it is the root of the sample variance of the
    valid [t]. *)
Theorem t_sd_sample_sd (sub : DataFrame) :
  let v := dropna_t (col_t sub) in
  (forall a, infer_bin_attributes sub = Ret a ->
             Bin.t_sd a = pd_std (col_t sub)) /\
  (pd_std (col_t sub) = SdNaN <-> (length v <= 1)%nat) /\
  ((2 <= length v)%nat ->
   exists q, pd_std (col_t sub) = SdSqrt q /\ (q == sample_variance v)%Q).
Proof.
  intros v. split; [|split].
  - intros a Ha. apply infer_bin_attributes_Ret in Ha.
    destruct Ha as (from_t & to_t & _ & _ & _ & _ & _ & _ & Hsd & _).
    exact Hsd.
  - apply pd_std_nan.
  - intros H2. unfold pd_std. fold v.
    destruct (Z.leb_spec (Z.of_nat (length v)) 1); [lia|].
    eexists. split; [reflexivity|].
    rewrite Qred_correct. apply pd_var_sample_variance.
    destruct v; [simpl in H2; lia|discriminate].
Qed.

(** ** What the loops emit *)

Tactic Notation "inv_bind" hyp(H) "as" ident(a) ident(Ha) :=
  apply bind_Ret_inv in H; destruct H as (a & Ha & H).

(** The rows of a width-based run are the images, by [emit], of the bins
    the loop forms. *)
Lemma equal_days_loop_bins {B : Type} (emit : DataFrame -> outcome B)
    (fuel : nat) (table : DataFrame) (days : Z) :
  forall from_t to_t rows,
    equal_days_loop emit fuel table days from_t to_t = Ret rows ->
    exists bins,
      equal_days_loop (fun b => Ret b) fuel table days from_t to_t = Ret bins /\
      Forall2 (fun b x => emit b = Ret x) bins rows.
Proof.
  induction fuel as [|fuel IH]; intros from_t to_t rows H; [discriminate|].
  cbn [equal_days_loop] in *.
  destruct (py_max (col_t table)) as [max_t| |]; try discriminate.
  cbn [bind] in *.
  destruct (t_lt to_t max_t).
  - inv_bind H as new Hnew. inv_bind H as rest Hrest. injection H as <-.
    apply IH in Hrest. destruct Hrest as (bins & Hb & HF). rewrite Hb.
    destruct (filter _ table) as [|r sub].
    + injection Hnew as <-. exists bins. split; [reflexivity|assumption].
    + inv_bind Hnew as x Hx. injection Hnew as <-.
      exists ((r :: sub) :: bins). split; [reflexivity|].
      constructor; assumption.
  - injection H as <-. exists []. split; [reflexivity|constructor].
Qed.

Lemma equal_size_loop_bins {B : Type} (emit : DataFrame -> outcome B)
    (fuel : nat) (table : DataFrame) (s : Z) :
  forall from_t to_t actual_index rows,
    equal_size_loop emit fuel table s from_t to_t actual_index = Ret rows ->
    exists bins,
      equal_size_loop (fun b => Ret b) fuel table s from_t to_t actual_index
        = Ret bins /\
      Forall2 (fun b x => emit b = Ret x) bins rows.
Proof.
  induction fuel as [|fuel IH]; intros from_t to_t ai rows H; [discriminate|].
  cbn [equal_size_loop] in *.
  destruct (py_max (col_t table)) as [max_t| |]; try discriminate.
  cbn [bind] in *.
  destruct (t_lt to_t max_t && (ai + s <=? len table)).
  - inv_bind H as to_t' Hto. rewrite Hto. cbn [bind].
    inv_bind H as x Hx. inv_bind H as rest Hrest. injection H as <-.
    apply IH in Hrest. destruct Hrest as (bins & Hb & HF). rewrite Hb.
    eexists. split; [reflexivity|]. constructor; assumption.
  - injection H as <-. exists []. split; [reflexivity|constructor].
Qed.

Lemma Forall2_emit_Forall {B : Type} (emit : DataFrame -> outcome B)
    (P : B -> Prop) (bins : list DataFrame) (rows : list B) :
  (forall b x, emit b = Ret x -> P x) ->
  Forall2 (fun b x => emit b = Ret x) bins rows -> Forall P rows.
Proof. intros HP HF. induction HF; constructor; eauto. Qed.

(** Every row of a binner's frame has the property [P] that [emit]
    establishes. *)
Lemma binning_equal_days_Forall (P : Bin.row -> Prop) fuel table days rows :
  (forall b x, emit_row ("eq_days_" ++ str days) b = Ret x -> P x) ->
  binning_equal_days fuel table days = Ret rows -> Forall P rows.
Proof.
  intros HP H. unfold binning_equal_days, equal_days in H. inv_bind H as from_t Hfrom.
  apply equal_days_loop_bins in H. destruct H as (bins & _ & HF).
  eapply Forall2_emit_Forall; eassumption.
Qed.

Lemma binning_equal_size_Forall (P : Bin.row -> Prop) fuel table s rows :
  (forall b x, emit_row ("eq_size_" ++ str s) b = Ret x -> P x) ->
  binning_equal_size fuel table s = Ret rows -> Forall P rows.
Proof.
  intros HP H. unfold binning_equal_size, equal_size in H.
  apply equal_size_loop_bins in H. destruct H as (bins & _ & HF).
  eapply Forall2_emit_Forall; eassumption.
Qed.

Lemma emit_row_Ret (label : string) (b : DataFrame) (x : Bin.row) :
  emit_row label b = Ret x ->
  infer_bin_attributes b = Ret (Bin.attributes x) /\ Bin.binning x = label.
Proof.
  unfold emit_row. intros H. inv_bind H as a Ha. injection H as <-. auto.
Qed.

(** C5, with the labels the code writes.  Every row of a width-based run
    with width [w] carries [binning = "eq_days_<w>"], and every row of a
    size-based run with size [s] carries [binning = "eq_size_<s>"]. *)
Theorem binning_labels (fuel : nat) (table : list Seq.row) (w s : Z) :
  (forall rows, binning_equal_days fuel table w = Ret rows ->
     Forall (fun r => Bin.binning r = ("eq_days_" ++ str w)%string) rows) /\
  (forall rows, binning_equal_size fuel table s = Ret rows ->
     Forall (fun r => Bin.binning r = ("eq_size_" ++ str s)%string) rows).
Proof.
  split; intros rows H.
  - eapply binning_equal_days_Forall; [|exact H].
    intros b x Hx. now apply emit_row_Ret in Hx.
  - eapply binning_equal_size_Forall; [|exact H].
    intros b x Hx. now apply emit_row_Ret in Hx.
Qed.

(** ** The aggregated table *)

Lemma for_each_Forall {A B : Type} (f : A -> outcome (list B)) (P : B -> Prop)
    (xs : list A) :
  (forall x ys, f x = Ret ys -> Forall P ys) ->
  forall zs, for_each f xs = Ret zs -> Forall P zs.
Proof.
  intros Hf. induction xs as [|x xs IH]; intros zs H; cbn [for_each] in H.
  - injection H as <-. constructor.
  - inv_bind H as ys Hys. inv_bind H as zs' Hzs. injection H as <-.
    apply Forall_app. split; eauto.
Qed.

(** Every row of the concatenated frame comes out of [emit_row]. *)
Lemma concat_results_Forall (P : Bin.row -> Prop) fuel table sizes widths all :
  (forall label b x, emit_row label b = Ret x -> P x) ->
  concat_results fuel table sizes widths = Ret all -> Forall P all.
Proof.
  intros HP H. unfold concat_results in H.
  inv_bind H as by_days Hd. inv_bind H as by_size Hs. injection H as <-.
  apply Forall_app. split.
  - eapply for_each_Forall; [|exact Hd]. intros w ys Hys.
    eapply binning_equal_days_Forall; [|exact Hys]. intros b x. apply HP.
  - eapply for_each_Forall; [|exact Hs]. intros s ys Hys.
    eapply binning_equal_size_Forall; [|exact Hys]. intros b x. apply HP.
Qed.

Lemma calculate_phi_per_bin_Ret fuel table sizes widths final :
  calculate_phi_per_bin fuel table sizes widths = Ret final ->
  exists minDate all,
    min_date table = Ret minDate /\
    concat_results fuel table sizes widths = Ret all /\
    all <> [] /\
    final = sort_values (map (with_date minDate) (dropna all)).
Proof.
  unfold calculate_phi_per_bin. intros H.
  inv_bind H as minDate Hmin. inv_bind H as all Hall.
  exists minDate, all. destruct all as [|r all]; [discriminate|].
  injection H as <-. repeat split; auto. discriminate.
Qed.

Lemma map_bin_with_date (minDate : Z) (l : list Bin.row) :
  map Res.bin (map (with_date minDate) l) = l.
Proof. rewrite map_map. simpl. apply map_id. Qed.

(** The rows of the final table, without their dates, are the rows of the
    concatenated frame that [dropna] keeps. *)
Lemma final_rows_perm fuel table sizes widths final :
  calculate_phi_per_bin fuel table sizes widths = Ret final ->
  exists all,
    concat_results fuel table sizes widths = Ret all /\
    Permutation (map Res.bin final) (dropna all).
Proof.
  intros H. apply calculate_phi_per_bin_Ret in H.
  destruct H as (minDate & all & _ & Hall & _ & ->).
  exists all. split; [assumption|].
  rewrite <- (map_bin_with_date minDate (dropna all)) at 2.
  apply Permutation_map, sort_values_perm.
Qed.

(** What [dropna] keeps.  The final table holds exactly the rows of the
    concatenated frame in which neither [phi] nor [t_sd] is NaN: no row of
    it has a NaN [phi], and a concatenated row is kept if and only if both
    cells are numbers. *)
Theorem dropna_exact fuel table sizes widths final :
  calculate_phi_per_bin fuel table sizes widths = Ret final ->
  exists all,
    concat_results fuel table sizes widths = Ret all /\
    Forall (fun r => is_nan (Res.phi r) = false) final /\
    (forall b, In b all ->
       (In b (map Res.bin final) <->
        is_nan (Bin.phi (Bin.attributes b)) = false /\
        sd_is_nan (Bin.t_sd (Bin.attributes b)) = false)).
Proof.
  intros H. apply final_rows_perm in H. destruct H as (all & Hall & Hperm).
  exists all. split; [assumption|].
  assert (Hin : forall b, In b (map Res.bin final) <-> In b all /\ has_nan b = false).
  { intros b. split; intros Hb.
    - apply (Permutation_in _ Hperm) in Hb. unfold dropna in Hb.
      apply filter_In in Hb. now rewrite negb_true_iff in Hb.
    - apply (Permutation_in _ (Permutation_sym Hperm)). unfold dropna.
      apply filter_In. now rewrite negb_true_iff. }
  split.
  - apply Forall_forall. intros r Hr.
    assert (Hb : In (Res.bin r) (map Res.bin final)) by now apply in_map.
    apply Hin in Hb. destruct Hb as [_ Hb]. unfold has_nan in Hb.
    apply orb_false_iff in Hb. apply Hb.
  - intros b Hb. rewrite Hin. unfold has_nan. rewrite orb_false_iff. tauto.
Qed.

Lemma emit_row_single label b x :
  emit_row label b = Ret x ->
  Bin.sampleSize (Bin.attributes x) = 1 ->
  Bin.t_sd (Bin.attributes x) = SdNaN.
Proof.
  intros Hx H1. apply emit_row_Ret in Hx. destruct Hx as [Hx _].
  apply infer_bin_attributes_Ret in Hx.
  destruct Hx as (from_t & to_t & _ & _ & _ & HN & _ & _ & Hsd & _).
  rewrite Hsd. apply pd_std_nan.
  assert (Hlen : (length (dropna_t (col_t b)) <= length b)%nat).
  { unfold col_t. clear. induction b as [|[i [[z|] d s]] b IH]; simpl; lia. }
  unfold len in HN. lia.
Qed.

(** C9. No row of the final table has a NaN cell, in [phi] or in [t_sd];
    since [t_sd] is NaN for a bin of a single sequence, no row of it has
    [sampleSize = 1]. *)
Theorem final_table_no_nan fuel table sizes widths final :
  calculate_phi_per_bin fuel table sizes widths = Ret final ->
  Forall (fun r => is_nan (Res.phi r) = false /\
                   sd_is_nan (Res.t_sd r) = false /\
                   Res.sampleSize r <> 1) final.
Proof.
  intros H. apply final_rows_perm in H. destruct H as (all & Hall & Hperm).
  apply Forall_forall. intros r Hr.
  assert (Hb : In (Res.bin r) (dropna all)).
  { apply (Permutation_in _ Hperm). now apply in_map. }
  unfold dropna in Hb. apply filter_In in Hb. destruct Hb as [Hb Hnan].
  apply negb_true_iff, orb_false_iff in Hnan. destruct Hnan as [Hsd Hphi].
  repeat split; try assumption.
  intros H1.
  assert (HP : Forall (fun x => Bin.sampleSize (Bin.attributes x) = 1 ->
                                Bin.t_sd (Bin.attributes x) = SdNaN) all).
  { eapply concat_results_Forall; [|exact Hall].
    intros label b x. apply emit_row_single. }
  rewrite Forall_forall in HP. specialize (HP _ Hb H1).
  unfold Res.t_sd in Hsd. rewrite HP in Hsd. discriminate.
Qed.

(** ** Python's [min] and [max] on a column that starts with a valid [t] *)

Lemma min_from_Some (l : list tval) : forall x,
  exists m, min_from (Some x) l = Some m /\ m <= x /\
            (forall z, In (Some z) l -> m <= z) /\
            (m = x \/ In (Some m) l).
Proof.
  induction l as [|[y|] l IH]; intros x; cbn [min_from].
  - exists x. repeat split; [lia| |auto]. intros z [].
  - unfold t_lt. destruct (Z.ltb_spec y x).
    + destruct (IH y) as (m & Hm & Hle & Hall & Hin). exists m.
      repeat split; [assumption|lia| |].
      * intros z [Hz|Hz]; [injection Hz as <-; lia|auto].
      * right. destruct Hin as [->|Hin]; [now left|now right].
    + destruct (IH x) as (m & Hm & Hle & Hall & Hin). exists m.
      repeat split; [assumption|lia| |].
      * intros z [Hz|Hz]; [injection Hz as <-; lia|auto].
      * destruct Hin as [->|Hin]; [now left|right; now right].
  - destruct (IH x) as (m & Hm & Hle & Hall & Hin). exists m.
    repeat split; [assumption|lia| |].
    + intros z [Hz|Hz]; [discriminate|auto].
    + destruct Hin as [->|Hin]; [now left|right; now right].
Qed.

Lemma max_from_Some (l : list tval) : forall x,
  exists m, max_from (Some x) l = Some m /\ x <= m /\
            (forall z, In (Some z) l -> z <= m) /\
            (m = x \/ In (Some m) l).
Proof.
  induction l as [|[y|] l IH]; intros x; cbn [max_from].
  - exists x. repeat split; [lia| |auto]. intros z [].
  - unfold t_gt, t_lt. destruct (Z.ltb_spec x y).
    + destruct (IH y) as (m & Hm & Hle & Hall & Hin). exists m.
      repeat split; [assumption|lia| |].
      * intros z [Hz|Hz]; [injection Hz as <-; lia|auto].
      * right. destruct Hin as [->|Hin]; [now left|now right].
    + destruct (IH x) as (m & Hm & Hle & Hall & Hin). exists m.
      repeat split; [assumption|lia| |].
      * intros z [Hz|Hz]; [injection Hz as <-; lia|auto].
      * destruct Hin as [->|Hin]; [now left|right; now right].
  - destruct (IH x) as (m & Hm & Hle & Hall & Hin). exists m.
    repeat split; [assumption|lia| |].
    + intros z [Hz|Hz]; [discriminate|auto].
    + destruct Hin as [->|Hin]; [now left|right; now right].
Qed.

Lemma max_from_None (l : list tval) : max_from None l = None.
Proof. induction l as [|y l IH]; cbn [max_from]; [reflexivity|].
  unfold t_gt, t_lt. destruct y; exact IH. Qed.

(** [max] of a column is a number only when the column starts with one; it
    is then the largest of the valid values. *)
Lemma py_max_Some (l : list tval) (m : Z) :
  py_max l = Ret (Some m) ->
  (exists x l', l = Some x :: l' /\ x <= m) /\
  (forall z, In (Some z) l -> z <= m) /\ In (Some m) l.
Proof.
  destruct l as [|[x|] l]; cbn [py_max]; intros H; try discriminate.
  - injection H as H. destruct (max_from_Some l x) as (m' & Hm & Hle & Hall & Hin).
    rewrite Hm in H. injection H as ->. repeat split.
    + eauto.
    + intros z [Hz|Hz]; [injection Hz as <-; lia|auto].
    + destruct Hin as [->|Hin]; [now left|now right].
  - injection H as H. rewrite max_from_None in H. discriminate.
Qed.

Lemma py_min_max_head (x : Z) (l : list tval) :
  exists lo hi, py_min (Some x :: l) = Ret (Some lo) /\
                py_max (Some x :: l) = Ret (Some hi) /\
                (forall z, In (Some z) (Some x :: l) -> lo <= z <= hi).
Proof.
  destruct (min_from_Some l x) as (lo & Hlo & Hlx & Hlall & _).
  destruct (max_from_Some l x) as (hi & Hhi & Hhx & Hhall & _).
  exists lo, hi. cbn [py_min py_max]. rewrite Hlo, Hhi. repeat split.
  - destruct H as [H|H]; [injection H as <-; lia|auto].
  - destruct H as [H|H]; [injection H as <-; lia|auto].
Qed.

(** ** Frames *)

Lemma col_t_combine (table : list Seq.row) (k : nat) :
  col_t (combine (seq k (length table)) table) = map Seq.t table.
Proof.
  revert k. induction table as [|r table IH]; intros k; simpl; [reflexivity|].
  f_equal. apply IH.
Qed.

Lemma col_t_frame_of (table : list Seq.row) :
  col_t (frame_of table) = map Seq.t table.
Proof. apply col_t_combine. Qed.

Lemma labels_combine (table : list Seq.row) (k : nat) :
  labels (combine (seq k (length table)) table) = seq k (length table).
Proof.
  revert k. induction table as [|r table IH]; intros k; simpl; [reflexivity|].
  f_equal. apply IH.
Qed.

Lemma NoDup_labels_frame_of (table : list Seq.row) :
  NoDup (labels (frame_of table)).
Proof. unfold frame_of. rewrite labels_combine. apply seq_NoDup. Qed.

Lemma snd_combine (table : list Seq.row) (k : nat) :
  map snd (combine (seq k (length table)) table) = table.
Proof.
  revert k. induction table as [|r table IH]; intros k; simpl; [reflexivity|].
  f_equal. apply IH.
Qed.

Lemma reset_index_frame_of (table : list Seq.row) :
  reset_index (frame_of table) = frame_of table.
Proof.
  unfold reset_index, frame_of. rewrite snd_combine.
  rewrite length_combine, length_seq, Nat.min_id. reflexivity.
Qed.

(** In a frame with distinct labels the label determines the row. *)
Lemma label_determines_row (df : DataFrame) (a b : nat * Seq.row) :
  NoDup (labels df) -> In a df -> In b df -> fst a = fst b -> a = b.
Proof.
  unfold labels. induction df as [|r df IH]; intros Hnd Ha Hb Hab; [contradiction|].
  cbn [map] in Hnd. inversion Hnd as [|? ? Hnotin Hnd']; subst.
  destruct Ha as [->|Ha], Hb as [->|Hb]; auto.
  - exfalso. apply Hnotin. rewrite Hab. now apply in_map.
  - exfalso. apply Hnotin. rewrite <- Hab. now apply in_map.
Qed.

Lemma NoDup_labels_incl (df l : DataFrame) :
  NoDup (labels df) -> incl l df -> NoDup l -> NoDup (labels l).
Proof.
  intros Hdf Hincl Hl. unfold labels.
  apply NoDup_map_NoDup_ForallPairs; [|assumption].
  intros a b Ha Hb Hab. eapply label_determines_row; eauto.
Qed.

Lemma NoDup_of_labels (df : DataFrame) : NoDup (labels df) -> NoDup df.
Proof. apply NoDup_map_inv. Qed.

(** ** Bins of equal days *)

Lemma in_window_In (table : DataFrame) (a b : Z) (row : nat * Seq.row) :
  In row (in_window table a b) <->
  In row table /\ exists z, Seq.t (snd row) = Some z /\ a <= z <= b.
Proof.
  unfold in_window. rewrite filter_In, andb_true_iff.
  unfold t_ge, t_le. destruct (Seq.t (snd row)) as [z|].
  - rewrite !Z.leb_le. split.
    + intros [Hin Hz]. split; [assumption|]. exists z. split; [reflexivity|lia].
    + intros [Hin (z' & Hz' & Hab)]. injection Hz' as <-. split; [assumption|lia].
  - split.
    + intros [_ [H _]]. discriminate.
    + intros [_ (z & Hz & _)]. discriminate.
Qed.

Lemma concat_nonempty_cons (b : DataFrame) (bins : list DataFrame) :
  concat (match b with [] => [] | _ => [b] end ++ bins) = b ++ concat bins.
Proof. destruct b; reflexivity. Qed.

Lemma windows_In (table : DataFrame) (days : Z) (n : nat) :
  0 <= days ->
  forall from_t row,
    In row (concat (windows table days from_t n)) <->
    In row table /\
    exists z, Seq.t (snd row) = Some z /\
              from_t <= z < from_t + Z.of_nat n * days.
Proof.
  intros Hdays. induction n as [|n IH]; intros from_t row.
  - simpl. split; [contradiction|]. intros [_ (z & _ & Hz)]. lia.
  - cbn [windows]. rewrite concat_nonempty_cons, in_app_iff, in_window_In, IH.
    rewrite Nat2Z.inj_succ. split.
    + intros [[Hin (z & Hz & Hr)] | [Hin (z & Hz & Hr)]];
        (split; [assumption|]); exists z; (split; [assumption|]); nia.
    + intros [Hin (z & Hz & Hr)].
      destruct (Z_lt_le_dec z (from_t + days)).
      * left. split; [assumption|]. exists z. split; [assumption|lia].
      * right. split; [assumption|]. exists z. split; [assumption|nia].
Qed.

Lemma windows_NoDup (table : DataFrame) (days : Z) (n : nat) :
  0 <= days -> NoDup table ->
  forall from_t, NoDup (concat (windows table days from_t n)).
Proof.
  intros Hdays Hnd. induction n as [|n IH]; intros from_t.
  - constructor.
  - cbn [windows]. rewrite concat_nonempty_cons. apply NoDup_app.
    + now apply NoDup_filter.
    + apply IH.
    + intros row Hrow Hrest.
      apply in_window_In in Hrow. apply windows_In in Hrest; [|assumption].
      destruct Hrow as [_ (z & Hz & Hr)].
      destruct Hrest as [_ (z' & Hz' & Hr')].
      rewrite Hz in Hz'. injection Hz' as <-. lia.
Qed.


(** The loop forms the windows whose upper bound is below the largest [t],
    and no other. *)
Lemma equal_days_loop_windows (table : DataFrame) (days max_t : Z) :
  py_max (col_t table) = Ret (Some max_t) -> 1 <= days ->
  forall fuel from_t,
    (Z.to_nat ((max_t - from_t) / days) < fuel)%nat ->
    equal_days_loop (fun b => Ret b) fuel table days
      (Some from_t) (Some (from_t + days - 1))
    = Ret (windows table days from_t (Z.to_nat ((max_t - from_t) / days))).
Proof.
  intros Hmax Hdays. induction fuel as [|fuel IH]; intros from_t Hfuel; [lia|].
  cbn [equal_days_loop]. rewrite Hmax. cbn [bind t_lt t_add option_map].
  destruct (Z.ltb_spec (from_t + days - 1) max_t) as [Hlt|Hge].
  - assert (Hdiv : (max_t - from_t) / days = (max_t - (from_t + days)) / days + 1).
    { rewrite <- Z.div_add by lia. f_equal. lia. }
    assert (Hpos : 0 <= (max_t - (from_t + days)) / days)
      by (apply Z.div_pos; lia).
    replace (Z.to_nat ((max_t - from_t) / days))
      with (S (Z.to_nat ((max_t - (from_t + days)) / days))) by lia.
    cbn [windows].
    replace (from_t + days - 1 + days) with (from_t + days + days - 1) by lia.
    rewrite IH by lia. fold (in_window table from_t (from_t + days - 1)).
    destruct (in_window table from_t (from_t + days - 1)); reflexivity.
  - assert (Hdiv : (max_t - from_t) / days < 1)
      by (apply Z.div_lt_upper_bound; lia).
    replace (Z.to_nat ((max_t - from_t) / days)) with 0%nat by lia.
    reflexivity.
Qed.

(** An ordered table with a valid [t] starts with one. *)
Lemma ordered_by_t_head (table : list Seq.row) :
  ordered_by_t table -> (exists z, In (Some z) (map Seq.t table)) ->
  exists x r table', table = r :: table' /\ Seq.t r = Some x.
Proof.
  intros Hs [z Hz]. destruct table as [|r table]; [contradiction|].
  destruct (Seq.t r) as [x|] eqn:E; [eauto|]. exfalso.
  apply StronglySorted_inv in Hs. destruct Hs as [_ Hall].
  destruct Hz as [Hz|Hz]; [congruence|].
  apply in_map_iff in Hz. destruct Hz as (r' & Hr' & Hin).
  rewrite Forall_forall in Hall. specialize (Hall _ Hin).
  unfold np_le in Hall. rewrite E, Hr' in Hall. discriminate.
Qed.

(** What the loop forms.  On a table ordered by [t] with a valid [t],
    and for a width of at least one day, the binner returns.  Its bins are
    the non-empty ones of the consecutive windows of [days] days from
    [min(t)] on whose upper bound is below [max(t)]: there is a cut, a
    whole number of windows after [min(t)], such that the window that
    starts at the cut is the first to reach [max(t)], and that window is
    not formed.  No row is in two bins, and the rows of the bins are the
    rows of the table with a valid [t] below the cut. *)
Theorem equal_days_bins_partition (table : list Seq.row) (days : Z) :
  ordered_by_t table -> (exists z, In (Some z) (map Seq.t table)) ->
  1 <= days ->
  exists (min_t max_t : Z) (n : nat),
    py_min (map Seq.t table) = Ret (Some min_t) /\
    py_max (map Seq.t table) = Ret (Some max_t) /\
    (forall z, In (Some z) (map Seq.t table) -> min_t <= z <= max_t) /\
    let cut := min_t + Z.of_nat n * days in
    let bins := windows (frame_of table) days min_t n in
    cut <= max_t <= cut + days - 1 /\
    (forall fuel, (n < fuel)%nat -> equal_days_bins fuel table days = Ret bins) /\
    NoDup (labels (concat bins)) /\
    (forall row, In row (concat bins) <->
       In row (frame_of table) /\
       exists z, Seq.t (snd row) = Some z /\ z < cut).
Proof.
  intros Hs Hz Hdays.
  destruct (ordered_by_t_head _ Hs Hz) as (x & r & table' & Htab & Hx).
  assert (Hcol : map Seq.t table = Some x :: map Seq.t table')
    by (rewrite Htab; cbn [map]; now rewrite Hx).
  destruct (py_min_max_head x (map Seq.t table')) as (lo & hi & Hlo & Hhi & Hall).
  rewrite <- Hcol in Hlo, Hhi, Hall.
  exists lo, hi, (Z.to_nat ((hi - lo) / days)).
  split; [assumption|]. split; [assumption|]. split; [assumption|].
  assert (Hlohi : lo <= hi).
  { destruct (Hall x); [rewrite Hcol; now left|lia]. }
  assert (Hq : 0 <= (hi - lo) / days) by (apply Z.div_pos; lia).
  cbv zeta. rewrite Z2Nat.id by assumption.
  pose proof (Z.mul_div_le (hi - lo) days ltac:(lia)) as Hle.
  pose proof (Z.mul_succ_div_gt (hi - lo) days ltac:(lia)) as Hgt.
  split; [nia|]. split; [|split].
  - intros fuel Hfuel. unfold equal_days_bins, equal_days.
    rewrite col_t_frame_of, Hlo. cbn [bind t_add option_map].
    replace (lo + (days - 1)) with (lo + days - 1) by lia.
    apply equal_days_loop_windows; [now rewrite col_t_frame_of|lia|assumption].
  - apply NoDup_labels_incl with (df := frame_of table).
    + apply NoDup_labels_frame_of.
    + intros row Hrow. apply windows_In in Hrow; [tauto|lia].
    + apply windows_NoDup; [lia|]. apply NoDup_of_labels, NoDup_labels_frame_of.
  - intros row. rewrite windows_In by lia. split.
    + intros [Hin (z & Hz' & Hr)]. split; [assumption|]. exists z.
      split; [assumption|lia].
    + intros [Hin (z & Hz' & Hr)]. split; [assumption|]. exists z.
      split; [assumption|]. split; [|lia].
      apply Hall. rewrite <- Hz'. unfold frame_of in Hin.
      apply in_map. destruct row as [i row]. eapply in_combine_r, Hin.
Qed.

(** ** Ordered frames, [searchsorted] and [iloc] *)

Lemma sorted_rows_combine (table : list Seq.row) :
  ordered_by_t table ->
  forall k, sorted_rows (combine (seq k (length table)) table).
Proof.
  unfold sorted_rows. induction 1 as [|r table Hs IH Hall]; intros k; simpl.
  - constructor.
  - constructor; [apply IH|].
    apply Forall_forall. intros [i r'] Hin. apply in_combine_r in Hin.
    rewrite Forall_forall in Hall. exact (Hall _ Hin).
Qed.

Lemma sorted_rows_frame_of (table : list Seq.row) :
  ordered_by_t table -> sorted_rows (frame_of table).
Proof. intros H. now apply sorted_rows_combine. Qed.

Lemma StronglySorted_app_inv {A : Type} (R : A -> A -> Prop) (l1 l2 : list A) :
  StronglySorted R (l1 ++ l2) ->
  StronglySorted R l1 /\ StronglySorted R l2 /\
  (forall a b, In a l1 -> In b l2 -> R a b).
Proof.
  induction l1 as [|x l1 IH]; simpl; intros H.
  - repeat split; [constructor|assumption|contradiction].
  - apply StronglySorted_inv in H. destruct H as [H Hall].
    destruct (IH H) as (H1 & H2 & H12).
    rewrite Forall_app in Hall. destruct Hall as [Hall1 Hall2].
    repeat split; [now constructor|assumption|].
    intros a b [<-|Ha] Hb; [|auto].
    rewrite Forall_forall in Hall2. auto.
Qed.

(** Above a value that is not below [v], nothing is below [v]. *)
Lemma np_less_false_trans (h y v : tval) :
  np_less h v = false -> np_le h y -> np_less y v = false.
Proof.
  unfold np_le. destruct h as [h|], y as [y|], v as [v|]; simpl;
    rewrite ?Z.ltb_ge, ?Z.ltb_nlt; intros; try reflexivity; try discriminate; lia.
Qed.

Lemma sorted_rows_not_below (r : nat * Seq.row) (l : DataFrame) (v : tval) :
  sorted_rows (r :: l) -> np_less (key r) v = false ->
  Forall (fun y => np_less (key y) v = false) (r :: l).
Proof.
  intros Hs Hr. apply StronglySorted_inv in Hs. destruct Hs as [_ Hall].
  constructor; [assumption|].
  eapply Forall_impl; [|exact Hall]. intros y Hy.
  eapply np_less_false_trans; eassumption.
Qed.

Lemma first_not_below_bounds (df : DataFrame) (v : tval) :
  0 <= first_not_below (col_t df) v <= len df.
Proof.
  unfold len. induction df as [|r df IH]; cbn [col_t map first_not_below length]; [lia|].
  fold (col_t df). destruct (np_less (Seq.t (snd r)) v); lia.
Qed.

(** The frame is cut after the leading rows below [v]. *)
Lemma first_not_below_split (df : DataFrame) (v : tval) :
  let a := Z.to_nat (first_not_below (col_t df) v) in
  Forall (fun r => np_less (key r) v = true) (firstn a df) /\
  match skipn a df with
  | [] => True
  | r :: _ => np_less (key r) v = false
  end.
Proof.
  induction df as [|r df IH]; cbn [col_t map first_not_below].
  - simpl. split; [constructor|exact I].
  - fold (col_t df). destruct (np_less (Seq.t (snd r)) v) eqn:E.
    + pose proof (first_not_below_bounds df v) as Hb.
      rewrite Z2Nat.inj_add by lia. cbn [Z.to_nat Pos.to_nat Pos.iter_op Nat.add firstn skipn].
      destruct IH as [IH1 IH2]. split; [constructor; assumption|assumption].
    + simpl. split; [constructor|exact E].
Qed.

Lemma StronglySorted_nth {A : Type} (R : A -> A -> Prop) (l : list A) :
  StronglySorted R l ->
  forall i j x y, (i < j)%nat ->
    nth_error l i = Some x -> nth_error l j = Some y -> R x y.
Proof.
  induction 1 as [|a l Hs IH Hall]; intros i j x y Hij Hi Hj.
  - destruct i; discriminate.
  - destruct j as [|j]; [lia|]. destruct i as [|i]; simpl in Hi, Hj.
    + injection Hi as <-. apply nth_error_In in Hj.
      rewrite Forall_forall in Hall. auto.
    + eapply IH; [|eassumption|eassumption]. lia.
Qed.

(** Below a value that is below [v], everything is below [v]. *)
Lemma np_less_true_trans (m j v : tval) :
  np_less m v = true -> np_le j m -> np_less j v = true.
Proof.
  unfold np_le. destruct m as [m|], j as [j|], v as [v|]; simpl;
    rewrite ?Z.ltb_lt, ?Z.ltb_ge; intros; try reflexivity; try discriminate; lia.
Qed.

(** The position that has only elements below [v] before it and none from
    it on is the one [first_not_below] finds. *)
Lemma first_not_below_unique (a : list tval) (v : tval) : forall r,
  0 <= r <= Z.of_nat (length a) ->
  (forall j x, Z.of_nat j < r -> nth_error a j = Some x -> np_less x v = true) ->
  (forall j x, r <= Z.of_nat j -> nth_error a j = Some x -> np_less x v = false) ->
  first_not_below a v = r.
Proof.
  induction a as [|x a IH]; intros r Hr Hlo Hhi; cbn [first_not_below].
  - simpl in Hr. lia.
  - cbn [length] in Hr. destruct (np_less x v) eqn:E.
    + assert (H1 : 1 <= r).
      { destruct (Z_lt_le_dec r 1) as [Hlt|]; [|assumption].
        rewrite (Hhi 0%nat x) in E; [discriminate|lia|reflexivity]. }
      rewrite (IH (r - 1)); [lia|lia| |].
      * intros j y Hj Hn. apply (Hlo (S j) y); [lia|exact Hn].
      * intros j y Hj Hn. apply (Hhi (S j) y); [lia|exact Hn].
    + destruct (Z_le_gt_dec r 0) as [|Hgt]; [lia|].
      rewrite (Hlo 0%nat x) in E; [discriminate|lia|reflexivity].
Qed.

(** The bisection keeps the elements below [v] before [min_idx] and none
    of them from [max_idx] on; on a sorted array it ends on the first
    element that is not below [v]. *)
Lemma bisect_left_sorted (a : list tval) (v : tval) :
  StronglySorted np_le a ->
  forall fuel min_idx max_idx,
    0 <= min_idx <= max_idx -> max_idx <= Z.of_nat (length a) ->
    max_idx - min_idx <= Z.of_nat fuel ->
    (forall j x, Z.of_nat j < min_idx -> nth_error a j = Some x ->
                 np_less x v = true) ->
    (forall j x, max_idx <= Z.of_nat j -> nth_error a j = Some x ->
                 np_less x v = false) ->
    bisect_left fuel a v min_idx max_idx = first_not_below a v.
Proof.
  intros Hs. induction fuel as [|fuel IH];
    intros lo hi Hb Hlen Hfuel Hlo Hhi; cbn [bisect_left].
  - symmetry. apply first_not_below_unique; [lia|exact Hlo|].
    intros j x Hj. apply Hhi. lia.
  - destruct (Z.ltb_spec lo hi) as [Hlt|Hge].
    + set (mid := lo + Z.shiftr (hi - lo) 1).
      assert (Hmid : lo <= mid < hi).
      { unfold mid. rewrite Z.shiftr_div_pow2 by lia. change (2 ^ 1) with 2.
        pose proof (Z.div_pos (hi - lo) 2). pose proof (Z.div_lt (hi - lo) 2).
        lia. }
      destruct (nth_error a (Z.to_nat mid)) as [mv|] eqn:En.
      * destruct (np_less mv v) eqn:E.
        -- apply IH; [lia|lia|lia| |exact Hhi].
           intros j x Hj Hn.
           destruct (Nat.eq_dec j (Z.to_nat mid)) as [->|Hne].
           ++ congruence.
           ++ eapply np_less_true_trans; [exact E|].
              eapply (StronglySorted_nth _ _ Hs j (Z.to_nat mid)); [lia|eassumption|eassumption].
        -- apply IH; [lia|lia|lia|exact Hlo|].
           intros j x Hj Hn.
           destruct (Nat.eq_dec j (Z.to_nat mid)) as [->|Hne].
           ++ congruence.
           ++ eapply np_less_false_trans; [exact E|].
              eapply (StronglySorted_nth _ _ Hs (Z.to_nat mid) j); [lia|eassumption|eassumption].
      * apply nth_error_None in En. lia.
    + symmetry. apply first_not_below_unique; [lia|exact Hlo|].
      intros j x Hj. apply Hhi. lia.
Qed.

(** On a sorted array [searchsorted] is what numpy specifies. *)
Lemma searchsorted_sorted (a : list tval) (v : tval) :
  StronglySorted np_le a -> searchsorted a v = first_not_below a v.
Proof.
  intros Hs. unfold searchsorted. apply bisect_left_sorted; try assumption; try lia.
  intros j x Hj Hn. assert (Hlt : (j < length a)%nat); [|lia].
  apply nth_error_Some. congruence.
Qed.

Lemma sorted_rows_col_t (df : DataFrame) :
  sorted_rows df -> StronglySorted np_le (col_t df).
Proof.
  unfold sorted_rows, col_t. induction 1 as [|r df Hs IH Hall]; cbn [map].
  - constructor.
  - constructor; [assumption|]. apply Forall_map. exact Hall.
Qed.

Lemma searchsorted_rows (df : DataFrame) (v : tval) :
  sorted_rows df -> searchsorted (col_t df) v = first_not_below (col_t df) v.
Proof. intros Hs. now apply searchsorted_sorted, sorted_rows_col_t. Qed.

Lemma slice_bound_id (n i : Z) : 0 <= i <= n -> slice_bound n i = i.
Proof. unfold slice_bound. intros H. destruct (Z.ltb_spec i 0); lia. Qed.

Lemma iloc_shape {A : Type} (df : list A) (a b : Z) :
  0 <= a <= len df ->
  exists k, iloc df a b = firstn k (skipn (Z.to_nat a) df).
Proof.
  intros Ha. unfold iloc. rewrite (slice_bound_id _ a Ha). eauto.
Qed.

Lemma iloc_length {A : Type} (df : list A) (a s : Z) :
  0 <= a -> 0 <= s -> a + s <= len df ->
  len (iloc df a (Z.min (a + s) (len df))) = s.
Proof.
  intros Ha Hs Hlen. unfold iloc.
  rewrite Z.min_l by assumption.
  rewrite !slice_bound_id by lia.
  unfold len in *. rewrite length_firstn, length_skipn. lia.
Qed.

(** In an ordered frame, the window that starts where [searchsorted]
    says: the rows before it are below [from_t], and no row from the window
    on is. *)
Lemma window_shape (table : DataFrame) (from_t : tval) (e : Z) :
  sorted_rows table ->
  let ai := searchsorted (col_t table) from_t in
  let w := iloc table ai e in
  0 <= ai <= len table /\
  exists pre post,
    table = pre ++ w ++ post /\
    len pre = ai /\
    Forall (fun r => np_less (key r) from_t = true) pre /\
    Forall (fun r => np_less (key r) from_t = false) (w ++ post).
Proof.
  intros Hs ai w.
  assert (Eai : ai = first_not_below (col_t table) from_t)
    by now apply searchsorted_rows.
  pose proof (first_not_below_bounds table from_t) as Hb. rewrite <- Eai in Hb.
  split; [exact Hb|].
  destruct (iloc_shape table ai e Hb) as [k Hk]. fold w in Hk.
  destruct (first_not_below_split table from_t) as [Hpre Hhd].
  rewrite <- Eai in Hpre, Hhd.
  exists (firstn (Z.to_nat ai) table), (skipn k (skipn (Z.to_nat ai) table)).
  assert (Hw : w ++ skipn k (skipn (Z.to_nat ai) table) = skipn (Z.to_nat ai) table)
    by (rewrite Hk; apply firstn_skipn).
  rewrite Hw. repeat split.
  - symmetry. apply firstn_skipn.
  - unfold len in *. rewrite length_firstn. lia.
  - assumption.
  - rewrite <- (firstn_skipn (Z.to_nat ai) table) in Hs.
    apply StronglySorted_app_inv in Hs. destruct Hs as (_ & Hs & _).
    destruct (skipn (Z.to_nat ai) table) as [|r l]; [constructor|].
    now apply sorted_rows_not_below.
Qed.

Lemma np_less_Some_false (x : Z) (v : tval) :
  np_less (Some x) v = false -> exists f, v = Some f /\ f <= x.
Proof.
  destruct v as [f|]; simpl; [|discriminate].
  rewrite Z.ltb_ge. eauto.
Qed.

Lemma In_col_t (df : DataFrame) (z : tval) :
  In z (col_t df) -> exists r, In r df /\ key r = z.
Proof.
  unfold col_t. rewrite in_map_iff. intros (r & Hr & Hin). eauto.
Qed.

(** In an ordered frame, a window whose largest [t] is a number below the
    largest [t] of the frame holds valid [t] only, between [from_t] and that
    number. *)
Lemma window_valid (table pre w post : DataFrame) (from_t : tval) (z m : Z) :
  table = pre ++ w ++ post -> sorted_rows table ->
  Forall (fun r => np_less (key r) from_t = true) pre ->
  Forall (fun r => np_less (key r) from_t = false) (w ++ post) ->
  py_max (col_t w) = Ret (Some z) ->
  py_max (col_t table) = Ret (Some m) -> z < m ->
  exists f, from_t = Some f /\ f <= z /\
            Forall (fun r => exists y, key r = Some y /\ f <= y <= z) w.
Proof.
  intros Htab Hs Hpre Hrest Hz Hm Hzm.
  apply py_max_Some in Hz. destruct Hz as ((x & ks & Hks & Hxz) & Hzall & _).
  destruct w as [|r0 w']; [discriminate|].
  cbn [col_t map] in Hks. injection Hks as Hr0 _.
  assert (Hf : exists f, from_t = Some f /\ f <= x).
  { apply np_less_Some_false. rewrite <- Hr0.
    cbn [app] in Hrest. inversion Hrest; subst. assumption. }
  destruct Hf as (f & -> & Hfx). exists f. split; [reflexivity|]. split; [lia|].
  apply py_max_Some in Hm. destruct Hm as (_ & _ & Hm).
  apply In_col_t in Hm. destruct Hm as (rM & HrM & HkM).
  assert (HinM : In rM post).
  { rewrite Htab in HrM. rewrite !in_app_iff in HrM.
    destruct HrM as [HrM|[HrM|HrM]]; [| |assumption]; exfalso.
    - rewrite Forall_forall in Hpre. specialize (Hpre _ HrM).
      rewrite HkM in Hpre. simpl in Hpre. apply Z.ltb_lt in Hpre. lia.
    - assert (Hle : m <= z); [|lia]. apply Hzall. rewrite <- HkM.
      unfold col_t, key. now apply in_map with (f := fun r => Seq.t (snd r)). }
  rewrite Htab in Hs. apply StronglySorted_app_inv in Hs.
  destruct Hs as (_ & Hs & _). apply StronglySorted_app_inv in Hs.
  destruct Hs as (_ & _ & Hwp).
  apply Forall_forall. intros r Hr.
  specialize (Hwp r rM Hr HinM). unfold np_le in Hwp. rewrite HkM in Hwp.
  destruct (key r) as [y|] eqn:Ey; [|discriminate].
  exists y. split; [reflexivity|]. split.
  - rewrite Forall_forall in Hrest. specialize (Hrest r).
    rewrite in_app_iff in Hrest. specialize (Hrest (or_introl Hr)).
    rewrite Ey in Hrest. simpl in Hrest. apply Z.ltb_ge in Hrest. lia.
  - apply Hzall. rewrite <- Ey. unfold col_t, key.
    now apply in_map with (f := fun r => Seq.t (snd r)).
Qed.

(** ** Bins of equal size *)

(** Induction along the iterations of the loop: [Inv] holds of the state
    and of the bins formed from it on. *)
Lemma equal_size_loop_inv (table : DataFrame) (s : Z) (max_t : tval)
    (Inv : tval -> tval -> Z -> list DataFrame -> Prop) :
  py_max (col_t table) = Ret max_t ->
  (forall from_t to_t ai, Inv from_t to_t ai []) ->
  (forall from_t to_t ai to_t' rest,
     t_lt to_t max_t = true -> ai + s <= len table ->
     let ai' := searchsorted (col_t table) from_t in
     let w := iloc table ai' (Z.min (ai' + s) (len table)) in
     py_max (col_t w) = Ret to_t' ->
     Inv (t_add to_t' 1) to_t' ai' rest ->
     Inv from_t to_t ai (snap_bin table from_t to_t' w :: rest)) ->
  forall fuel from_t to_t ai bins,
    equal_size_loop (fun b => Ret b) fuel table s from_t to_t ai = Ret bins ->
    Inv from_t to_t ai bins.
Proof.
  intros Hmax Hnil Hstep.
  induction fuel as [|fuel IH]; intros from_t to_t ai bins H; [discriminate|].
  cbn [equal_size_loop] in H. rewrite Hmax in H. cbn [bind] in H.
  destruct (t_lt to_t max_t && (ai + s <=? len table)) eqn:G.
  - apply andb_true_iff in G. destruct G as [G1 G2]. apply Z.leb_le in G2.
    inv_bind H as to_t' Hto. cbn [bind] in H.
    inv_bind H as rest Hrest. injection H as <-.
    apply Hstep; auto.
  - injection H as <-. apply Hnil.
Qed.

Lemma snap_bin_incl (table : DataFrame) (from_t to_t : tval) (w : DataFrame) :
  incl w table -> incl (snap_bin table from_t to_t w) table.
Proof.
  intros Hw. unfold snap_bin. destruct (t_eq from_t to_t); [|assumption].
  intros r Hr. apply filter_In in Hr. tauto.
Qed.

Lemma t_eq_true (a b : tval) :
  t_eq a b = true <-> exists z, a = Some z /\ b = Some z.
Proof.
  destruct a as [x|], b as [y|]; simpl;
    try (split; [discriminate|intros (z & H1 & H2); discriminate]).
  rewrite Z.eqb_eq. split.
  - intros ->. eauto.
  - intros (z & H1 & H2). congruence.
Qed.

Lemma t_lt_true (a b : tval) :
  t_lt a b = true <-> exists x y, a = Some x /\ b = Some y /\ x < y.
Proof.
  destruct a as [x|], b as [y|]; simpl;
    try (split; [discriminate|intros (x' & y' & H1 & H2 & _); discriminate]).
  rewrite Z.ltb_lt. split.
  - intros H. exists x, y. auto.
  - intros (x' & y' & H1 & H2 & H). congruence.
Qed.

Lemma NoDup_firstn {A : Type} (k : nat) (l : list A) : NoDup l -> NoDup (firstn k l).
Proof.
  intros H. rewrite <- (firstn_skipn k l) in H. eapply NoDup_app_remove_r, H.
Qed.

Lemma NoDup_skipn {A : Type} (k : nat) (l : list A) : NoDup l -> NoDup (skipn k l).
Proof.
  intros H. rewrite <- (firstn_skipn k l) in H. eapply NoDup_app_remove_l, H.
Qed.

Lemma iloc_NoDup {A : Type} (df : list A) (a b : Z) : NoDup df -> NoDup (iloc df a b).
Proof. intros H. unfold iloc. now apply NoDup_firstn, NoDup_skipn. Qed.

Lemma snap_bin_NoDup (table : DataFrame) (from_t to_t : tval) (w : DataFrame) :
  NoDup table -> NoDup w -> NoDup (snap_bin table from_t to_t w).
Proof.
  intros Ht Hw. unfold snap_bin. destruct (t_eq from_t to_t); [|assumption].
  now apply NoDup_filter.
Qed.

(** What one iteration establishes in an ordered frame: the rows of the
    bin are rows of the frame, none of them below [from_t]; and when the
    largest [t] of the window is below the largest of the frame, the rows
    of the bin are valid, from [from_t] up to it, and the window was not
    shrunk by the snapping. *)
Lemma equal_size_step (table : DataFrame) (s : Z) (from_t to_t' : tval) :
  sorted_rows table ->
  let ai' := searchsorted (col_t table) from_t in
  let w := iloc table ai' (Z.min (ai' + s) (len table)) in
  let b := snap_bin table from_t to_t' w in
  py_max (col_t w) = Ret to_t' ->
  Forall (fun r => In r table /\ np_less (key r) from_t = false) b /\
  (forall m z, py_max (col_t table) = Ret (Some m) -> to_t' = Some z -> z < m ->
     (exists f, from_t = Some f /\ f <= z) /\
     Forall (fun r => exists y, key r = Some y /\ y <= z) b /\
     len w <= len b).
Proof.
  intros Hs ai' w b Hto.
  destruct (window_shape table from_t (Z.min (ai' + s) (len table)) Hs)
    as (_ & pre & post & Htab & _ & Hpre & Hrest).
  fold ai' in Htab, Hrest. fold w in Htab, Hrest.
  assert (Hw : Forall (fun r => In r table /\ np_less (key r) from_t = false) w).
  { apply Forall_forall. intros r Hr. split.
    - rewrite Htab, !in_app_iff. auto.
    - rewrite Forall_forall in Hrest. apply Hrest. rewrite in_app_iff. auto. }
  split.
  - unfold b, snap_bin. destruct (t_eq from_t to_t') eqn:E; [|assumption].
    apply t_eq_true in E. destruct E as (z & -> & ->).
    apply Forall_forall. intros r Hr. apply filter_In in Hr.
    destruct Hr as [Hin Hr]. split; [assumption|].
    apply t_eq_true in Hr. destruct Hr as (z' & Hk & Hz'). injection Hz' as <-.
    unfold key. rewrite Hk. simpl. apply Z.ltb_irrefl.
  - intros m z Hm -> Hzm.
    destruct (window_valid table pre w post from_t z m Htab Hs Hpre Hrest Hto Hm Hzm)
      as (f & -> & Hfz & Hval).
    split; [eauto|].
    unfold b, snap_bin. cbn [t_eq]. destruct (Z.eqb_spec f z) as [->|Hne].
    + split.
      * apply Forall_forall. intros r Hr. apply filter_In in Hr.
        destruct Hr as [_ Hr]. apply t_eq_true in Hr.
        destruct Hr as (z' & Hk & Hz'). injection Hz' as <-.
        exists z. split; [exact Hk|lia].
      * rewrite Htab, !filter_app. unfold len. rewrite !length_app.
        assert (Hall : filter (fun r => t_eq (Seq.t (snd r)) (Some z)) w = w).
        { clear - Hval. induction w as [|r w IH]; [reflexivity|].
          inversion Hval as [|? ? (y & Hy & Hr) Hval']; subst. cbn [filter].
          unfold key in Hy. rewrite Hy. cbn [t_eq].
          replace (y =? z) with true by (symmetry; apply Z.eqb_eq; lia).
          f_equal. now apply IH. }
        rewrite Hall. lia.
    + split; [|lia].
      eapply Forall_impl; [|exact Hval]. intros r (y & Hy & Hr). exists y.
      split; [assumption|lia].
Qed.



Lemma removelast_cons {A : Type} (a : A) (l : list A) :
  l <> [] -> removelast (a :: l) = a :: removelast l.
Proof. destruct l; [congruence|reflexivity]. Qed.

(** All the bins but the last have [s] rows or more. *)
Lemma equal_size_loop_sizes (table : DataFrame) (s : Z) (max_t : tval) :
  sorted_rows table -> py_max (col_t table) = Ret max_t ->
  forall fuel from_t to_t ai bins,
    equal_size_loop (fun b => Ret b) fuel table s from_t to_t ai = Ret bins ->
    (bins <> [] -> t_lt to_t max_t = true /\ ai + s <= len table) /\
    Forall (fun b => s <= len b) (removelast bins).
Proof.
  intros Hs Hmax.
  apply (equal_size_loop_inv table s max_t
           (fun from_t to_t ai bins =>
              (bins <> [] -> t_lt to_t max_t = true /\ ai + s <= len table) /\
              Forall (fun b => s <= len b) (removelast bins)) Hmax).
  - intros. split; [congruence|constructor].
  - intros from_t to_t ai to_t' rest G1 G2 ai' w Hto [IHg IHs].
    split; [auto|].
    destruct rest as [|b' rest]; [constructor|].
    rewrite removelast_cons by discriminate. constructor; [|assumption].
    destruct IHg as [IH1 IH2]; [discriminate|].
    apply t_lt_true in IH1. destruct IH1 as (z & m & -> & -> & Hzm).
    destruct (equal_size_step table s from_t (Some z) Hs Hto) as [_ Hstep].
    destruct (Hstep m z Hmax eq_refl Hzm) as (_ & _ & Hlen).
    fold ai' in Hlen. fold w in Hlen.
    destruct (Z_le_gt_dec 0 s) as [Hs0|Hs0].
    + destruct (window_shape table from_t (Z.min (ai' + s) (len table)) Hs)
        as [Hb _]. fold ai' in Hb.
      unfold w in Hlen at 1. rewrite iloc_length in Hlen by lia. exact Hlen.
    + unfold len. lia.
Qed.

(** No row is in two bins: the rows of a bin that is followed by another
    are below the [from_t] of the next iteration, and no later row is. *)
Lemma equal_size_loop_disjoint (table : DataFrame) (s : Z) (max_t : tval) :
  sorted_rows table -> NoDup table -> py_max (col_t table) = Ret max_t ->
  forall fuel from_t to_t ai bins,
    equal_size_loop (fun b => Ret b) fuel table s from_t to_t ai = Ret bins ->
    Forall (Forall (fun r => In r table /\ np_less (key r) from_t = false)) bins /\
    NoDup (concat bins) /\
    (bins <> [] -> t_lt to_t max_t = true) /\
    day_separated bins.
Proof.
  intros Hs Hnd Hmax.
  apply (equal_size_loop_inv table s max_t
           (fun from_t to_t ai bins =>
              Forall (Forall (fun r => In r table /\ np_less (key r) from_t = false))
                     bins /\
              NoDup (concat bins) /\
              (bins <> [] -> t_lt to_t max_t = true) /\
              day_separated bins) Hmax).
  - intros. split; [constructor|]. split; [constructor|]. split; [congruence|exact I].
  - intros from_t to_t ai to_t' rest G1 G2 ai' w Hto (IHin & IHnd & IHg & IHsep).
    destruct (equal_size_step table s from_t to_t' Hs Hto) as [Hb Hstep].
    fold ai' in Hb, Hstep. fold w in Hb, Hstep.
    assert (Hbnd : NoDup (snap_bin table from_t to_t' w)).
    { apply snap_bin_NoDup; [assumption|]. now apply iloc_NoDup. }
    destruct rest as [|b' rest].
    + split; [repeat constructor; assumption|].
      split; [|split; [auto|exact I]].
      cbn [concat]. now rewrite app_nil_r.
    + assert (IHg' : t_lt to_t' max_t = true) by (apply IHg; discriminate).
      apply t_lt_true in IHg'. destruct IHg' as (z & m & -> & -> & Hzm).
      destruct (Hstep m z Hmax eq_refl Hzm) as ((f & -> & Hfz) & Hval & _).
      cbn [t_add option_map] in IHin.
      assert (Hsep : day_separated (snap_bin table (Some f) (Some z) w :: b' :: rest)).
      { cbn [day_separated]. split; [|exact IHsep]. exists z. split; [exact Hval|].
        apply Forall_inv in IHin. eapply Forall_impl; [|exact IHin].
        intros r [_ Hr]. exact Hr. }
      split; [constructor; [assumption|]|split; [|split; [auto|exact Hsep]]].
      * eapply Forall_impl; [|exact IHin]. intros bin Hbin.
        eapply Forall_impl; [|exact Hbin]. intros r [Hr Hk].
        split; [assumption|]. destruct (key r) as [y|]; [|reflexivity].
        simpl in *. apply Z.ltb_ge in Hk. apply Z.ltb_ge. lia.
      * cbn [concat]. apply NoDup_app; [assumption|assumption|].
        intros r Hr Hrest.
        rewrite Forall_forall in Hval. destruct (Hval _ Hr) as (y & Hy & Hyz).
        change (In r (concat (b' :: rest))) in Hrest.
        apply in_concat in Hrest. destruct Hrest as (bin & Hbin & Hrbin).
        rewrite Forall_forall in IHin. specialize (IHin _ Hbin).
        rewrite Forall_forall in IHin. destruct (IHin _ Hrbin) as [_ Hk].
        rewrite Hy in Hk. simpl in Hk. apply Z.ltb_ge in Hk. lia.
Qed.



Lemma equal_size_bins_all_but_last (table : list Seq.row) (s : Z) (fuel : nat)
    (bins : list DataFrame) :
  ordered_by_t table ->
  equal_size_bins fuel table s = Ret bins ->
  Forall (fun b => s <= len b) (removelast bins).
Proof.
  intros Hs H. unfold equal_size_bins, equal_size in H.
  rewrite reset_index_frame_of in H.
  destruct (py_max (col_t (frame_of table))) as [max_t| |] eqn:Hmax.
  - apply (equal_size_loop_sizes _ s max_t (sorted_rows_frame_of _ Hs) Hmax) in H.
    apply H.
  - destruct fuel; [discriminate|]. cbn [equal_size_loop] in H.
    rewrite Hmax in H. discriminate.
  - destruct fuel; [discriminate|]. cbn [equal_size_loop] in H.
    rewrite Hmax in H. discriminate.
Qed.


(** The same on the frame the binner returns: every row but the last has a
    [sampleSize] of at least [s]. *)
Lemma binning_equal_size_sample_sizes (table : list Seq.row) (s : Z)
    (fuel : nat) (rows : list Bin.row) :
  ordered_by_t table ->
  binning_equal_size fuel table s = Ret rows ->
  Forall (fun r => s <= Bin.sampleSize (Bin.attributes r)) (removelast rows).
Proof.
  intros Hs H. unfold binning_equal_size, equal_size in H.
  apply equal_size_loop_bins in H. destruct H as (bins & Hbins & HF).
  apply (equal_size_bins_all_but_last table s fuel bins Hs) in Hbins.
  revert Hbins. induction HF as [|b x bins rows Hx HF IH]; intros Hbins;
    [constructor|].
  inversion HF as [|b' x' bins' rows' Hx' HF' Eb Er]; subst; [constructor|].
  rewrite removelast_cons in Hbins by discriminate.
  rewrite removelast_cons by discriminate.
  inversion Hbins as [|? ? Hb Hrest]; subst. constructor; [|now apply IH].
  apply emit_row_Ret in Hx. destruct Hx as [Hx _].
  apply infer_bin_attributes_Ret in Hx.
  destruct Hx as (from_t & to_t & _ & _ & _ & HN & _). now rewrite HN.
Qed.


(** * Further properties *)

(** ** The three estimators *)

Lemma guarded_numbers (x y : Q) :
  guarded (Num x) (Num y) = false <-> (~ x == 0 /\ ~ y == 0 /\ x < y)%Q.
Proof.
  unfold guarded. cbn [f_eq f_ge f_le].
  rewrite !orb_false_iff.
  assert (Hx : Qeq_bool x 0 = false <-> ~ (x == 0)%Q).
  { rewrite <- Qeq_bool_iff. destruct (Qeq_bool x 0); split; congruence. }
  assert (Hy : Qeq_bool y 0 = false <-> ~ (y == 0)%Q).
  { rewrite <- Qeq_bool_iff. destruct (Qeq_bool y 0); split; congruence. }
  assert (Hxy : Qle_bool y x = false <-> (x < y)%Q).
  { split.
    - intros H. apply Qnot_le_lt. rewrite <- Qle_bool_iff. congruence.
    - intros H. destruct (Qle_bool y x) eqn:E; [|reflexivity].
      apply Qle_bool_iff in E. apply Qlt_not_le in H. contradiction. }
  rewrite Hx, Hy, Hxy. tauto.
Qed.

(** X1. When a rate is zero or the haplotype rate is at least the mutation
    rate, the three estimators return the same value, 0 or NaN, and no
    minimiser is called; otherwise each returns what its own minimiser
    returns.  On rational rates the minimiser is reached exactly when both
    rates are non-zero and the haplotype rate is below the mutation rate. *)
Theorem estimators_guards (n_haplo n_mut : pyfloat) :
  (guarded n_haplo n_mut = true ->
   optim n_haplo n_mut = optim_2 n_haplo n_mut /\
   optim_2 n_haplo n_mut = optim_3 n_haplo n_mut /\
   (optim n_haplo n_mut = Ret (Num 0) \/ optim n_haplo n_mut = Ret NaN)) /\
  (guarded n_haplo n_mut = false ->
   optim n_haplo n_mut = nelder_mead n_haplo n_mut /\
   optim_2 n_haplo n_mut = l_bfgs_b n_haplo n_mut /\
   optim_3 n_haplo n_mut = trust_constr n_haplo n_mut) /\
  (forall x y, n_haplo = Num x -> n_mut = Num y ->
     (guarded n_haplo n_mut = false <-> (~ x == 0 /\ ~ y == 0 /\ x < y)%Q)).
Proof.
  unfold guarded, optim, optim_2, optim_3. split; [|split].
  - intros G. destruct (f_eq n_haplo (Num 0) || f_eq n_mut (Num 0)); [auto|].
    simpl in G. rewrite G. auto.
  - intros G. apply orb_false_iff in G. destruct G as [G1 G2].
    rewrite G1, G2. auto.
  - intros x y -> ->. apply guarded_numbers.
Qed.

(** ** The counts of a bin *)

Lemma rate_is_zero (count d : Z) :
  1 <= d -> (f_eq (rate count d) (Num 0) = true <-> count = 0).
Proof.
  intros Hd. unfold rate. destruct (Z.eqb_spec d 0) as [->|_]; [lia|].
  cbn [f_eq]. rewrite Qeq_bool_iff, Qred_correct.
  destruct d as [|p|p]; try lia.
  unfold Qeq, Qdiv, Qmult, Qinv, inject_Z. simpl. lia.
Qed.

Lemma rate_ge (a b d : Z) :
  1 <= d -> (f_ge (rate a d) (rate b d) = true <-> b <= a).
Proof.
  intros Hd. unfold rate, f_ge. destruct (Z.eqb_spec d 0) as [->|_]; [lia|].
  cbn [f_le]. rewrite Qle_bool_iff, Qred_le.
  destruct d as [|p|p]; try lia.
  unfold Qle, Qdiv, Qmult, Qinv, inject_Z. simpl. nia.
Qed.

Lemma NoDup_constant_length (c : string) (l : list string) :
  NoDup l -> (forall x, In x l -> x = c) -> (length l <= 1)%nat.
Proof.
  intros Hnd Hc. destruct l as [|x [|y l]]; simpl; try lia.
  exfalso. inversion Hnd as [|? ? Hnotin _]; subst. apply Hnotin.
  rewrite (Hc x), (Hc y); simpl; auto.
Qed.

(** At most one of the distinct [snvs] is the empty one, and the others are
    among the mutated sequences. *)
Lemma nodup_le_mutated (l : list string) :
  (length (nodup string_dec l)
   <= length (filter (fun s => negb (is_reference s)) l) + 1)%nat.
Proof.
  pose proof (filter_length is_reference (nodup string_dec l)) as Hsplit.
  assert (H1 : (length (filter is_reference (nodup string_dec l)) <= 1)%nat).
  { apply (NoDup_constant_length reference).
    - apply NoDup_filter, NoDup_nodup.
    - intros x Hx. apply filter_In in Hx. destruct Hx as [_ Hx].
      now apply String.eqb_eq in Hx. }
  assert (H2 : (length (filter (fun s => negb (is_reference s))
                               (nodup string_dec l))
                <= length (filter (fun s => negb (is_reference s)) l))%nat).
  { apply NoDup_incl_length; [apply NoDup_filter, NoDup_nodup|].
    intros x Hx. apply filter_In in Hx. destruct Hx as [Hx Hr].
    apply filter_In. split; [|assumption]. now apply nodup_In in Hx. }
  lia.
Qed.

Lemma no_mutated_all_reference (l : list string) :
  length (filter (fun s => negb (is_reference s)) l) = 0%nat ->
  forall x, In x l -> x = reference.
Proof.
  intros H x Hx. destruct (is_reference x) eqn:E.
  - now apply String.eqb_eq in E.
  - exfalso. assert (Hin : In x (filter (fun s => negb (is_reference s)) l))
      by (apply filter_In; rewrite E; auto).
    destruct (filter (fun s => negb (is_reference s)) l); [contradiction|].
    discriminate.
Qed.

Lemma flat_map_split_reference (l : list string) :
  (forall x, In x l -> x = reference) -> flat_map split l = [].
Proof.
  induction l as [|x l IH]; intros H; [reflexivity|].
  cbn [flat_map]. rewrite (H x) by now left.
  rewrite IH by (intros y Hy; apply H; now right). reflexivity.
Qed.

(** All the fields of the row the extractor returns. *)
Lemma infer_bin_attributes_fields (sub : DataFrame) (a : Bin.attrs) :
  infer_bin_attributes sub = Ret a ->
  exists from_t to_t mean,
    pd_min (col_t sub) = Some from_t /\ pd_max (col_t sub) = Some to_t /\
    pd_mean (col_t sub) = Some mean /\
    Bin.t a = py_round mean /\
    Bin.t_sd a = pd_std (col_t sub) /\
    Bin.sampleSize a = len sub /\
    Bin.num_mut a =
      len (filter (fun s => negb (is_reference s)) (col_snvs sub)) /\
    Bin.daysPerBin a = wrap64 (to_t - from_t + 1) /\
    Bin.haplotypes a = count_distinct (col_snvs sub) /\
    Bin.n_mut_types a = count_distinct (flat_map split (col_snvs sub)) /\
    optim (rate (Bin.haplotypes a) (Bin.daysPerBin a))
          (rate (Bin.num_mut a) (Bin.daysPerBin a)) = Ret (Bin.phi a).
Proof.
  unfold infer_bin_attributes.
  destruct (pd_min (col_t sub)) as [from_t|]; [|discriminate].
  destruct (pd_max (col_t sub)) as [to_t|]; [|discriminate].
  destruct (pd_mean (col_t sub)) as [mean|]; [|discriminate].
  intros H. inv_bind H as phi Hphi. injection H as <-.
  cbn [Bin.t Bin.t_sd Bin.phi Bin.sampleSize Bin.num_mut Bin.daysPerBin
       Bin.haplotypes Bin.n_mut_types].
  exists from_t, to_t, mean. repeat split; try assumption; try exact Hphi.
  pose proof (filter_length is_reference (col_snvs sub)) as Hl.
  assert (Hc : length (col_snvs sub) = length sub) by apply length_map.
  unfold is_reference in *. unfold len. lia.
Qed.

Lemma days_per_bin_pos (sub : DataFrame) (from_t to_t : Z) :
  pd_min (col_t sub) = Some from_t -> pd_max (col_t sub) = Some to_t ->
  from_t <= to_t /\
  (forall z, In (Some z) (col_t sub) -> from_t <= z <= to_t).
Proof.
  unfold pd_min, pd_max. intros Hmin Hmax.
  assert (Hall : forall z, In z (dropna_t (col_t sub)) -> from_t <= z <= to_t).
  { destruct (dropna_t (col_t sub)) as [|x l]; [discriminate|].
    injection Hmin as <-. injection Hmax as <-. clear.
    induction l as [|y l IH]; cbn [fold_right]; intros z Hz.
    - destruct Hz as [->|[]]. lia.
    - destruct Hz as [->|[->|Hz]].
      + specialize (IH z (or_introl eq_refl)). lia.
      + lia.
      + specialize (IH z (or_intror Hz)). lia. }
  split.
  - destruct (dropna_t (col_t sub)) as [|x l] eqn:E; [discriminate|].
    specialize (Hall x (or_introl eq_refl)). lia.
  - intros z Hz. apply Hall. now apply dropna_t_In.
Qed.

(** X2. In every row the extractor returns, the sequences with mutations
    are counted by [num_mut], there is at least one sequence and one
    haplotype, and at most one haplotype more than there are mutated
    sequences; a bin without mutated sequences has a single haplotype and
    no mutation type. *)
Theorem bin_counts (sub : DataFrame) (a : Bin.attrs) :
  infer_bin_attributes sub = Ret a ->
  1 <= Bin.sampleSize a /\
  0 <= Bin.num_mut a /\
  1 <= Bin.haplotypes a <= Bin.num_mut a + 1 /\
  0 <= Bin.n_mut_types a /\
  (Bin.num_mut a = 0 -> Bin.haplotypes a = 1 /\ Bin.n_mut_types a = 0).
Proof.
  intros H. apply infer_bin_attributes_fields in H.
  destruct H as (from_t & to_t & mean & Hmin & _ & _ & _ & _ & HN & Hm & _
                 & Hh & Hty & _).
  assert (Hne : sub <> []).
  { intros ->. discriminate. }
  assert (Hlen : (1 <= length (col_snvs sub))%nat).
  { unfold col_snvs. rewrite length_map. destruct sub; [congruence|simpl; lia]. }
  assert (Hnd : (1 <= length (nodup string_dec (col_snvs sub)))%nat).
  { destruct (col_snvs sub) as [|x l] eqn:E; [simpl in Hlen; lia|].
    assert (Hx : In x (nodup string_dec (x :: l))) by (apply nodup_In; now left).
    destruct (nodup string_dec (x :: l)); [contradiction|simpl; lia]. }
  pose proof (nodup_le_mutated (col_snvs sub)) as Hle.
  rewrite HN, Hm, Hh, Hty. unfold count_distinct, len.
  split; [destruct sub; [congruence|simpl; lia]|].
  split; [lia|]. split; [lia|]. split; [lia|].
  intros H0.
  assert (H0' : length (filter (fun s => negb (is_reference s)) (col_snvs sub))
                = 0%nat) by lia.
  split; [lia|].
  rewrite (flat_map_split_reference _ (no_mutated_all_reference _ H0')).
  reflexivity.
Qed.

Lemma bin_counts_aux (sub : DataFrame) (a : Bin.attrs) :
  infer_bin_attributes sub = Ret a ->
  1 <= Bin.haplotypes a /\ 0 <= Bin.num_mut a.
Proof.
  intros H. apply infer_bin_attributes_fields in H.
  destruct H as (from_t & to_t & mean & Hmin & _ & _ & _ & _ & _ & Hm & _
                 & Hh & _).
  rewrite Hm, Hh. unfold count_distinct, len. split; [|lia].
  destruct sub as [|r sub]; [discriminate|].
  cbn [col_snvs map].
  assert (Hx : In (Seq.snvs (snd r))
                  (nodup string_dec (Seq.snvs (snd r) :: map (fun r => Seq.snvs (snd r)) sub)))
    by (apply nodup_In; now left).
  destruct (nodup string_dec _); [contradiction|simpl; lia].
Qed.

(** X3. When the first and the last day of a bin are less than [2 ** 63]
    days apart, so that [daysPerBin] does not wrap, the [phi] of its row
    follows from its counts: 0 when no sequence of the bin has a mutation;
    NaN when there are mutated sequences and at least as many haplotypes as
    mutated sequences; and otherwise what the minimiser returns at the two
    rates, haplotypes and mutated sequences over the days of the bin. *)
Theorem phi_by_counts (sub : DataFrame) (a : Bin.attrs) :
  infer_bin_attributes sub = Ret a ->
  span_fits_int64 (col_t sub) = true ->
  (Bin.num_mut a = 0 -> Bin.phi a = Num 0) /\
  (0 < Bin.num_mut a <= Bin.haplotypes a -> Bin.phi a = NaN) /\
  (Bin.haplotypes a < Bin.num_mut a ->
   nelder_mead (rate (Bin.haplotypes a) (Bin.daysPerBin a))
               (rate (Bin.num_mut a) (Bin.daysPerBin a)) = Ret (Bin.phi a)).
Proof.
  intros H Hfit. pose proof (bin_counts_aux sub a H) as (Hh & Hm).
  apply infer_bin_attributes_fields in H.
  destruct H as (from_t & to_t & mean & Hmin & Hmax & _ & _ & _ & _ & _ & Hd
                 & _ & _ & Hphi).
  assert (Hd1 : 1 <= Bin.daysPerBin a).
  { destruct (days_no_wrap _ _ _ Hmin Hmax) as [Hle Hw].
    rewrite Hd, (Hw Hfit). lia. }
  unfold optim in Hphi.
  pose proof (rate_is_zero (Bin.haplotypes a) _ Hd1) as Hz1.
  pose proof (rate_is_zero (Bin.num_mut a) _ Hd1) as Hz2.
  pose proof (rate_ge (Bin.haplotypes a) (Bin.num_mut a) _ Hd1) as Hge.
  destruct (f_eq (rate (Bin.haplotypes a) (Bin.daysPerBin a)) (Num 0)) eqn:E1.
  { assert (Bin.haplotypes a = 0) by now apply Hz1. lia. }
  destruct (f_eq (rate (Bin.num_mut a) (Bin.daysPerBin a)) (Num 0)) eqn:E2.
  - assert (Hm0 : Bin.num_mut a = 0) by now apply Hz2.
    cbn [orb] in Hphi. injection Hphi as Hphi.
    repeat split; intros; try lia. now symmetry.
  - assert (Hm0 : Bin.num_mut a <> 0).
    { intros E. apply Hz2 in E. congruence. }
    cbn [orb] in Hphi.
    destruct (f_ge (rate (Bin.haplotypes a) (Bin.daysPerBin a))
                   (rate (Bin.num_mut a) (Bin.daysPerBin a))) eqn:E3.
    + assert (Bin.num_mut a <= Bin.haplotypes a) by now apply Hge.
      injection Hphi as Hphi. repeat split; intros; try lia. now symmetry.
    + assert (~ Bin.num_mut a <= Bin.haplotypes a).
      { intros Hle. apply Hge in Hle. congruence. }
      repeat split; intros; try lia. exact Hphi.
Qed.

(** ** The day of a bin *)

Lemma Zsum_between (a b : Z) (v : list Z) :
  (forall x, In x v -> a <= x <= b) ->
  Z.of_nat (length v) * a <= Zsum v <= Z.of_nat (length v) * b.
Proof.
  induction v as [|x v IH]; intros H; [simpl; lia|].
  cbn [Zsum fold_right length]. fold (Zsum v). rewrite Nat2Z.inj_succ.
  specialize (H x (or_introl eq_refl)) as Hx.
  assert (IH' := IH (fun y Hy => H y (or_intror Hy))). nia.
Qed.

Lemma Qmean_between (a b : Z) (v : list Z) :
  v <> [] -> (forall x, In x v -> a <= x <= b) ->
  (inject_Z a <= Qmean v <= inject_Z b)%Q.
Proof.
  intros Hv H. pose proof (Zsum_between a b v H) as [Hlo Hhi].
  assert (Hn : (0 < inject_Z (Z.of_nat (length v)))%Q).
  { rewrite <- (Zlt_Qlt 0). destruct v; [congruence|simpl; lia]. }
  unfold Qmean. split.
  - apply Qle_shift_div_l; [exact Hn|].
    rewrite <- inject_Z_mult, <- Zle_Qle. lia.
  - apply Qle_shift_div_r; [exact Hn|].
    rewrite <- inject_Z_mult, <- Zle_Qle. lia.
Qed.

(** Rounding a number that lies between two integers stays between them. *)
Lemma py_round_between (a b : Z) (q : Q) :
  (inject_Z a <= q <= inject_Z b)%Q -> a <= py_round q <= b.
Proof.
  intros [Ha Hb].
  assert (Hfa : a <= Qfloor q).
  { apply Qfloor_resp_le in Ha. now rewrite Qfloor_Z in Ha. }
  assert (Hfb : Qfloor q <= b).
  { apply Qfloor_resp_le in Hb. now rewrite Qfloor_Z in Hb. }
  assert (Hup : (inject_Z (Qfloor q) < q)%Q -> Qfloor q + 1 <= b).
  { intros Hlt. assert (Qfloor q < b); [|lia].
    rewrite Zlt_Qlt. eapply Qlt_le_trans; eassumption. }
  pose proof (Qfloor_le q) as Hfl.
  assert (Hhalf : (1 # 2 <= q - inject_Z (Qfloor q))%Q ->
                  (inject_Z (Qfloor q) < q)%Q) by (intros; lra).
  unfold py_round. destruct (Qcompare (q - inject_Z (Qfloor q)) (1 # 2)) eqn:E.
  - apply Qeq_alt in E.
    assert (Hlt : (inject_Z (Qfloor q) < q)%Q) by (apply Hhalf; lra).
    destruct (Z.even (Qfloor q)); specialize (Hup Hlt); lia.
  - lia.
  - apply Qgt_alt in E.
    assert (Hlt : (inject_Z (Qfloor q) < q)%Q) by (apply Hhalf; lra).
    specialize (Hup Hlt). lia.
Qed.

(** Rounding keeps the sign. *)
Lemma py_round_nonneg (q : Q) : (0 <= q)%Q -> 0 <= py_round q.
Proof.
  intros H. assert (Hf : 0 <= Qfloor q).
  { apply Qfloor_resp_le in H. exact H. }
  unfold py_round. destruct (Qcompare _ _); [destruct (Z.even _)| |]; lia.
Qed.

Lemma pow2_pos (e : Z) : (0 < pow2 e)%Q.
Proof.
  unfold pow2. destruct (Z.ltb_spec 0 e).
  - rewrite <- (Zlt_Qlt 0). apply Z.pow_pos_nonneg; lia.
  - apply Qinv_lt_0_compat. rewrite <- (Zlt_Qlt 0).
    apply Z.pow_pos_nonneg; lia.
Qed.

Lemma fl64_nonneg (q : Q) : (0 <= q)%Q -> (0 <= fl64 q)%Q.
Proof.
  intros H. unfold fl64. destruct (Qeq_bool q 0); [apply Qle_refl|].
  cbv zeta. pose proof (pow2_pos (ulp_exp q)) as Hp.
  apply Qmult_le_0_compat; [|now apply Qlt_le_weak].
  rewrite <- (Zle_Qle 0). apply py_round_nonneg.
  apply Qle_shift_div_l; [exact Hp|]. now rewrite Qmult_0_l.
Qed.

(** Below [2 ** 53] in magnitude the last place is at most the unit, so
    that every integer is on the grid of the rounding. *)
Lemma ulp_exp_small (q : Q) :
  (Qabs q < inject_Z (2 ^ 53))%Q -> ulp_exp q <= 0.
Proof.
  intros H. unfold ulp_exp.
  set (e0 := Z.log2 (Z.abs (Qnum q)) - Z.log2 (Z.pos (Qden q)) - 52).
  destruct (Qle_bool (inject_Z (2 ^ 52) * pow2 e0) (Qabs q)) eqn:E.
  - apply Qle_bool_iff in E.
    destruct (Z.leb_spec e0 0) as [|Hpos]; [assumption|exfalso].
    unfold pow2 in E. destruct (Z.ltb_spec 0 e0); [|lia].
    rewrite <- inject_Z_mult in E.
    assert (Hlt : (inject_Z (2 ^ 52 * 2 ^ e0) < inject_Z (2 ^ 53))%Q)
      by (eapply Qle_lt_trans; eassumption).
    rewrite <- Zlt_Qlt in Hlt.
    assert (2 ^ 1 <= 2 ^ e0) by (apply Z.pow_le_mono_r; lia).
    change (2 ^ 53) with (2 ^ 52 * 2 ^ 1) in Hlt. nia.
  - assert (He : e0 <= 1); [|lia]. unfold e0.
    destruct q as [n d]. unfold Qabs, Qlt in H. cbn [Qnum Qden] in *.
    rewrite Z.mul_1_r in H. change (Qnum (inject_Z (2 ^ 53))) with (2 ^ 53) in H.
    assert (Hd : 0 <= Z.log2 (Z.pos d)) by apply Z.log2_nonneg.
    destruct (Z.eq_dec (Z.abs n) 0) as [Hz|Hz].
    { rewrite Hz. change (Z.log2 0) with 0. lia. }
    assert (Hn : 0 < Z.abs n) by lia.
    assert (Hlog : Z.log2 (Z.abs n) <= Z.log2 (Z.pos d * 2 ^ 53)).
    { apply Z.log2_le_mono. lia. }
    rewrite Z.log2_mul_pow2 in Hlog by lia. lia.
Qed.

(** The float64 nearest to a number between two integers below [2 ** 53]
    in magnitude lies between them. *)
Lemma fl64_between (a b : Z) (q : Q) :
  - 2 ^ 53 < a -> b < 2 ^ 53 ->
  (inject_Z a <= q <= inject_Z b)%Q ->
  (inject_Z a <= fl64 q <= inject_Z b)%Q.
Proof.
  intros Ha Hb [Hlo Hhi]. unfold fl64.
  destruct (Qeq_bool q 0) eqn:Ez.
  { apply Qeq_bool_iff in Ez. rewrite Ez in Hlo, Hhi. now split. }
  cbv zeta.
  assert (Habs : (Qabs q < inject_Z (2 ^ 53))%Q).
  { apply Qabs_Qlt_condition. split.
    - eapply Qlt_le_trans; [|exact Hlo].
      rewrite <- inject_Z_opp, <- Zlt_Qlt. lia.
    - eapply Qle_lt_trans; [exact Hhi|]. rewrite <- Zlt_Qlt. lia. }
  pose proof (ulp_exp_small q Habs) as He.
  set (e := ulp_exp q) in *.
  unfold pow2. destruct (Z.ltb_spec 0 e); [lia|].
  set (K := 2 ^ (- e)).
  assert (HK : 0 < K) by (apply Z.pow_pos_nonneg; lia).
  assert (HKq : (0 < inject_Z K)%Q) by (now rewrite <- (Zlt_Qlt 0)).
  assert (Hr : a * K <= py_round (q / / inject_Z K) <= b * K).
  { apply py_round_between. rewrite !inject_Z_mult.
    assert (Eq : (q / / inject_Z K == q * inject_Z K)%Q).
    { field. lra. }
    rewrite Eq. split; apply Qmult_le_compat_r; lra. }
  set (r := py_round (q / / inject_Z K)) in *.
  destruct Hr as [Hr1 Hr2].
  rewrite Zle_Qle, inject_Z_mult in Hr1, Hr2.
  split.
  - apply Qle_shift_div_l in Hr1; [|exact HKq].
    eapply Qle_trans; [exact Hr1|]. unfold Qdiv. apply Qle_refl.
  - apply Qle_shift_div_r in Hr2; [|exact HKq].
    eapply Qle_trans; [|exact Hr2]. unfold Qdiv. apply Qle_refl.
Qed.

(** The first and the last day of a bin are days of the bin. *)
Lemma pd_min_max_attained (sub : DataFrame) (from_t to_t : Z) :
  pd_min (col_t sub) = Some from_t -> pd_max (col_t sub) = Some to_t ->
  In (Some from_t) (col_t sub) /\ In (Some to_t) (col_t sub).
Proof.
  unfold pd_min, pd_max. intros Hmin Hmax.
  rewrite <- !dropna_t_In.
  destruct (dropna_t (col_t sub)) as [|x l]; [discriminate|].
  injection Hmin as <-. injection Hmax as <-. clear. split.
  - induction l as [|y l IH]; cbn [fold_right]; [now left|].
    destruct (Z.min_spec y (fold_right Z.min x l)) as [[_ ->]|[_ ->]].
    + right. now left.
    + destruct IH as [IH|IH]; [now left|right; now right].
  - induction l as [|y l IH]; cbn [fold_right]; [now left|].
    destruct (Z.max_spec y (fold_right Z.max x l)) as [[_ ->]|[_ ->]].
    + destruct IH as [IH|IH]; [now left|right; now right].
    + right. now left.
Qed.

(** No value exceeds the sum of the magnitudes. *)
Lemma abs_le_sum (v : list Z) (z : Z) :
  In z v -> Z.abs z <= Zsum (map Z.abs v).
Proof.
  induction v as [|x v IH]; intros Hz; [contradiction|].
  cbn [map Zsum fold_right]. fold (Zsum (map Z.abs v)).
  assert (Hpos : 0 <= Zsum (map Z.abs v)).
  { clear. induction v as [|y v IH]; cbn [map Zsum fold_right]; [lia|].
    fold (Zsum (map Z.abs v)). lia. }
  destruct Hz as [->|Hz]; [lia|]. specialize (IH Hz). lia.
Qed.

(** A column whose sum is exact in float64 has its days less than
    [2 ** 63] apart, and each below [2 ** 53] in magnitude. *)
Lemma sum_fits_bounds (l : list tval) :
  sum_fits_float64 l = true ->
  span_fits_int64 l = true /\
  (forall z, In (Some z) l -> - 2 ^ 53 < z < 2 ^ 53).
Proof.
  unfold sum_fits_float64. intros H. apply Z.ltb_lt in H.
  assert (Hall : forall z, In (Some z) l -> - 2 ^ 53 < z < 2 ^ 53).
  { intros z Hz. apply dropna_t_In in Hz. apply abs_le_sum in Hz. lia. }
  split; [|exact Hall]. unfold span_fits_int64.
  destruct (pd_min l) as [from_t|] eqn:Hmin; [|reflexivity].
  destruct (pd_max l) as [to_t|] eqn:Hmax; [|reflexivity].
  apply Z.ltb_lt.
  assert (Hin : In (Some from_t) l /\ In (Some to_t) l).
  { unfold pd_min, pd_max in *. rewrite <- !dropna_t_In.
    destruct (dropna_t l) as [|x v]; [discriminate|].
    injection Hmin as <-. injection Hmax as <-. clear. split.
    - induction v as [|y v IH]; cbn [fold_right]; [now left|].
      destruct (Z.min_spec y (fold_right Z.min x v)) as [[_ ->]|[_ ->]].
      + right. now left.
      + destruct IH as [IH|IH]; [now left|right; now right].
    - induction v as [|y v IH]; cbn [fold_right]; [now left|].
      destruct (Z.max_spec y (fold_right Z.max x v)) as [[_ ->]|[_ ->]].
      + destruct IH as [IH|IH]; [now left|right; now right].
      + right. now left. }
  destruct Hin as [H1 H2]. apply Hall in H1, H2. lia.
Qed.

(** The mean of a bin with no day before day 0 is not negative, however
    large the days. *)
Lemma bin_t_nonneg (sub : DataFrame) (a : Bin.attrs) :
  infer_bin_attributes sub = Ret a ->
  (forall z, In (Some z) (col_t sub) -> 0 <= z) ->
  0 <= Bin.t a.
Proof.
  intros H Hpos. apply infer_bin_attributes_fields in H.
  destruct H as (from_t & to_t & mean & Hmin & Hmax & Hmean & Ht & _).
  destruct (days_per_bin_pos sub from_t to_t Hmin Hmax) as [Hle Hall].
  rewrite Ht. apply py_round_nonneg. unfold pd_mean in Hmean.
  destruct (dropna_t (col_t sub)) as [|x l] eqn:E; [discriminate|].
  injection Hmean as <-. apply fl64_nonneg.
  apply Qle_trans with (inject_Z 0); [apply Qle_refl|].
  apply (Qmean_between 0 to_t); [discriminate|].
  intros z Hz. assert (Hin : In (Some z) (col_t sub)).
  { apply dropna_t_In. now rewrite E. }
  specialize (Hall z Hin). specialize (Hpos z Hin). lia.
Qed.

Lemma bin_day_range (sub : DataFrame) (a : Bin.attrs) :
  infer_bin_attributes sub = Ret a ->
  sum_fits_float64 (col_t sub) = true ->
  exists from_t,
    pd_min (col_t sub) = Some from_t /\
    In (Some from_t) (col_t sub) /\
    In (Some (from_t + Bin.daysPerBin a - 1)) (col_t sub) /\
    from_t <= Bin.t a <= from_t + Bin.daysPerBin a - 1 /\
    (forall z, In (Some z) (col_t sub) ->
               from_t <= z <= from_t + Bin.daysPerBin a - 1).
Proof.
  intros H Hfit. apply infer_bin_attributes_fields in H.
  destruct H as (from_t & to_t & mean & Hmin & Hmax & Hmean & Ht & _ & _ & _
                 & Hd & _).
  destruct (days_per_bin_pos sub from_t to_t Hmin Hmax) as [Hle Hall].
  destruct (pd_min_max_attained sub from_t to_t Hmin Hmax) as [Hin1 Hin2].
  destruct (sum_fits_bounds _ Hfit) as [Hspan Hsmall].
  destruct (days_no_wrap _ _ _ Hmin Hmax) as [_ Hw].
  exists from_t. split; [assumption|]. rewrite Hd, Ht, (Hw Hspan).
  replace (from_t + (to_t - from_t + 1) - 1) with to_t by lia.
  split; [assumption|]. split; [assumption|].
  split; [|exact Hall].
  apply py_round_between. unfold pd_mean in Hmean.
  destruct (dropna_t (col_t sub)) as [|x l] eqn:E; [discriminate|].
  injection Hmean as <-.
  pose proof (Hsmall _ Hin1). pose proof (Hsmall _ Hin2).
  apply fl64_between; [lia|lia|].
  apply Qmean_between; [discriminate|].
  intros z Hz. apply Hall. apply dropna_t_In. now rewrite E.
Qed.

(** X4. For a bin whose days are summed exactly in float64 (their
    magnitudes add up to less than [2 ** 53]), the [t] of the row, the
    rounded mean day, lies between the first and the last day of the bin,
    which are [daysPerBin] days apart: for the first day [from_t] of the
    bin, [from_t <= t <= from_t + daysPerBin - 1], both ends are days of
    sequences of the bin, and every valid [t] of the bin lies between
    them. *)
Theorem bin_t_within_days (sub : DataFrame) (a : Bin.attrs) :
  infer_bin_attributes sub = Ret a ->
  sum_fits_float64 (col_t sub) = true ->
  exists from_t,
    pd_min (col_t sub) = Some from_t /\
    In (Some from_t) (col_t sub) /\
    In (Some (from_t + Bin.daysPerBin a - 1)) (col_t sub) /\
    from_t <= Bin.t a <= from_t + Bin.daysPerBin a - 1 /\
    (forall z, In (Some z) (col_t sub) ->
               from_t <= z <= from_t + Bin.daysPerBin a - 1).
Proof. apply bin_day_range. Qed.

(** ** Tables without rows, without dates, without bins *)

Lemma min_date_no_date (table : list Seq.row) :
  (forall r, In r table -> Seq.date r = None) ->
  min_date table = Raise ValueError.
Proof.
  intros H. unfold min_date.
  replace (dropna_date (map Seq.date table)) with (@nil Z); [reflexivity|].
  induction table as [|r table IH]; [reflexivity|].
  cbn [map dropna_date]. rewrite (H r) by now left.
  apply IH. intros r' Hr'. apply H. now right.
Qed.

(** X5. A table in which no row has a date, the empty table among them,
    makes the aggregation raise [ValueError] before any bin is formed:
    whatever the sizes and the widths, and however many iterations the
    binners would need. *)
Theorem calculate_phi_per_bin_no_date (fuel : nat) (table : list Seq.row)
    (seqs_per_bin days_per_bin : list Z) :
  (forall r, In r table -> Seq.date r = None) ->
  calculate_phi_per_bin fuel table seqs_per_bin days_per_bin = Raise ValueError.
Proof.
  intros H. unfold calculate_phi_per_bin.
  now rewrite (min_date_no_date table H).
Qed.






(** ** A width that is not positive *)




(** ** The frame of the width-based binner *)

(** Every bin the loop forms is one of the windows of [days] days that
    start a whole number of windows after [from_t], and has rows. *)
Lemma equal_days_loop_aligned (table : DataFrame) (days : Z) :
  forall fuel from_t bins,
    equal_days_loop (fun b => Ret b) fuel table days
      (Some from_t) (Some (from_t + days - 1)) = Ret bins ->
    Forall (fun b => b <> [] /\
                     exists k, 0 <= k /\
                       b = in_window table (from_t + k * days)
                             (from_t + k * days + days - 1)) bins.
Proof.
  induction fuel as [|fuel IH]; intros from_t bins H; [discriminate|].
  cbn [equal_days_loop] in H.
  destruct (py_max (col_t table)) as [max_t| |]; try discriminate.
  cbn [bind t_add option_map] in H.
  destruct (t_lt (Some (from_t + days - 1)) max_t).
  - inv_bind H as new Hnew. inv_bind H as rest Hrest. injection H as <-.
    replace (from_t + days - 1 + days) with (from_t + days + days - 1)
      in Hrest by lia.
    apply IH in Hrest. apply Forall_app. split.
    + fold (in_window table from_t (from_t + days - 1)) in Hnew.
      destruct (in_window table from_t (from_t + days - 1)) as [|r b] eqn:E.
      * injection Hnew as <-. constructor.
      * injection Hnew as <-. constructor; [|constructor].
        split; [discriminate|]. exists 0. split; [lia|].
        rewrite <- E. f_equal; lia.
    + eapply Forall_impl; [|exact Hrest]. intros b [Hb (k & Hk & ->)].
      split; [assumption|]. exists (k + 1). split; [lia|]. f_equal; lia.
  - injection H as <-. constructor.
Qed.

Lemma Forall2_Forall_r {A B : Type} (P : A -> Prop) (R : A -> B -> Prop)
    (Q : B -> Prop) (l : list A) (l' : list B) :
  (forall a b, P a -> R a b -> Q b) ->
  Forall P l -> Forall2 R l l' -> Forall Q l'.
Proof.
  intros H HP HR. induction HR as [|a b l l' Hab HR IH]; [constructor|].
  inversion HP; subst. constructor; eauto.
Qed.

(** A selection of rows of a frame whose [t] are summed exactly is summed
    exactly. *)
Lemma sum_fits_filter (p : nat * Seq.row -> bool) (df : DataFrame) :
  sum_fits_float64 (col_t df) = true ->
  sum_fits_float64 (col_t (filter p df)) = true.
Proof.
  unfold sum_fits_float64. intros H. apply Z.ltb_lt in H. apply Z.ltb_lt.
  eapply Z.le_lt_trans; [|exact H]. clear H.
  induction df as [|[i [[z|] d s]] df IH]; cbn [filter]; [lia| |].
  - destruct (p _); cbn [col_t map dropna_t Seq.t snd Zsum fold_right];
      fold (col_t (filter p df)); fold (col_t df);
      fold (Zsum (map Z.abs (dropna_t (col_t (filter p df)))));
      fold (Zsum (map Z.abs (dropna_t (col_t df)))); lia.
  - destruct (p _); cbn [col_t map dropna_t Seq.t snd];
      fold (col_t (filter p df)); fold (col_t df); exact IH.
Qed.

(** X9. When the days of the table are summed exactly in float64 (their
    magnitudes add up to less than [2 ** 53]), every row of a width-based
    run lies in one of the windows counted from [min(t)]: its [daysPerBin]
    is between 1 and the width, and for some number [k] of windows,
    [min(t) + k * days <= t <= min(t) + k * days + days - 1]. *)
Theorem binning_equal_days_rows (fuel : nat) (table : list Seq.row) (days : Z)
    (rows : list Bin.row) :
  sum_fits_float64 (map Seq.t table) = true ->
  binning_equal_days fuel table days = Ret rows ->
  Forall (fun r =>
            1 <= Bin.daysPerBin (Bin.attributes r) <= days /\
            exists min_t k,
              py_min (map Seq.t table) = Ret (Some min_t) /\ 0 <= k /\
              min_t + k * days <= Bin.t (Bin.attributes r)
              <= min_t + k * days + days - 1) rows.
Proof.
  unfold binning_equal_days, equal_days. intros Hfit H.
  rewrite <- col_t_frame_of in Hfit.
  inv_bind H as from_t Hfrom. rewrite col_t_frame_of in Hfrom.
  apply equal_days_loop_bins in H. destruct H as (bins & Hbins & HF).
  destruct from_t as [min_t|].
  - cbn [t_add option_map] in Hbins.
    replace (min_t + (days - 1)) with (min_t + days - 1) in Hbins by lia.
    apply equal_days_loop_aligned in Hbins.
    eapply Forall2_Forall_r; [|exact Hbins|exact HF].
    intros b r [Hb (k & Hk & ->)] Hr. cbv beta in Hr.
    apply emit_row_Ret in Hr. destruct Hr as [Hr _].
    apply bin_day_range in Hr; [|now apply sum_fits_filter].
    destruct Hr as (from_t & _ & Hin1 & Hin2 & Ht & _).
    apply In_col_t in Hin1. destruct Hin1 as (r1 & Hr1 & Hk1).
    apply In_col_t in Hin2. destruct Hin2 as (r2 & Hr2 & Hk2).
    apply in_window_In in Hr1. destruct Hr1 as [_ (z1 & Hz1 & Hb1)].
    apply in_window_In in Hr2. destruct Hr2 as [_ (z2 & Hz2 & Hb2)].
    unfold key in Hk1, Hk2. rewrite Hz1 in Hk1. rewrite Hz2 in Hk2.
    injection Hk1 as ->. injection Hk2 as ->.
    split; [lia|]. exists min_t, k. split; [assumption|]. lia.
  - destruct fuel as [|fuel]; [discriminate|].
    cbn [equal_days_loop t_add option_map] in Hbins.
    destruct (py_max (col_t (frame_of table))); try discriminate.
    cbn [bind t_lt] in Hbins. injection Hbins as <-.
    inversion HF; subst. constructor.
Qed.






(** ** The frame of the size-based binner *)

(** X11. The size-based binner starts at day 0, not at [min(t)]: on a table
    ordered by [t], no sequence with a negative [t] is in any of its bins,
    and every row of its frame has [t >= 0]. *)
Theorem binning_equal_size_from_day_0 (fuel : nat) (table : list Seq.row)
    (s : Z) :
  ordered_by_t table ->
  (forall bins, equal_size_bins fuel table s = Ret bins ->
     Forall (Forall (fun r => forall z, Seq.t (snd r) = Some z -> 0 <= z)) bins) /\
  (forall rows, binning_equal_size fuel table s = Ret rows ->
     Forall (fun r => 0 <= Bin.t (Bin.attributes r)) rows).
Proof.
  intros Hs.
  assert (Hbins : forall bins,
             equal_size_bins fuel table s = Ret bins ->
             Forall (Forall (fun r => forall z, Seq.t (snd r) = Some z -> 0 <= z))
                    bins).
  { intros bins H. unfold equal_size_bins, equal_size in H.
    rewrite reset_index_frame_of in H.
    pose proof (NoDup_labels_frame_of table) as Hlab.
    destruct (py_max (col_t (frame_of table))) as [max_t| |] eqn:Hmax.
    - apply (equal_size_loop_disjoint _ s max_t (sorted_rows_frame_of _ Hs)
               (NoDup_of_labels _ Hlab) Hmax) in H.
      destruct H as (Hin & _).
      eapply Forall_impl; [|exact Hin]. intros b Hb.
      eapply Forall_impl; [|exact Hb]. intros r [_ Hr] z Hz.
      unfold key in Hr. rewrite Hz in Hr. simpl in Hr.
      now apply Z.ltb_ge in Hr.
    - destruct fuel; [discriminate|]. cbn [equal_size_loop] in H.
      rewrite Hmax in H. discriminate.
    - destruct fuel; [discriminate|]. cbn [equal_size_loop] in H.
      rewrite Hmax in H. discriminate. }
  split; [exact Hbins|].
  intros rows H. unfold binning_equal_size, equal_size in H.
  apply equal_size_loop_bins in H. destruct H as (bins & Hb & HF).
  apply Hbins in Hb.
  eapply Forall2_Forall_r; [|exact Hb|exact HF].
  intros b r Hpos Hr. cbv beta in Hr.
  apply emit_row_Ret in Hr. destruct Hr as [Hr _].
  apply (bin_t_nonneg _ _ Hr). intros z Hz.
  apply In_col_t in Hz. destruct Hz as (r1 & Hr1 & Hk1).
  rewrite Forall_forall in Hpos. exact (Hpos r1 Hr1 z Hk1).
Qed.

(** X12. A size of 0 makes the size-based binner raise [ValueError]: on a
    table ordered by [t] whose largest [t] is above 0, the first window is
    empty and [max] fails on it. *)
Theorem binning_equal_size_zero (fuel : nat) (table : list Seq.row)
    (max_t : Z) :
  ordered_by_t table ->
  py_max (map Seq.t table) = Ret (Some max_t) -> 0 < max_t ->
  binning_equal_size (S fuel) table 0 = Raise ValueError.
Proof.
  intros Hs Hmax Hpos. unfold binning_equal_size, equal_size.
  rewrite reset_index_frame_of. cbn [equal_size_loop].
  rewrite col_t_frame_of, Hmax. cbn [bind t_lt].
  destruct (Z.ltb_spec 0 max_t); [|lia].
  assert (Hlen : 0 <= len (frame_of table)) by (unfold len; lia).
  destruct (Z.leb_spec (0 + 0) (len (frame_of table))); [|lia]. cbn [andb].
  destruct (window_shape (frame_of table) (Some 0)
              (Z.min (searchsorted (col_t (frame_of table)) (Some 0) + 0)
                     (len (frame_of table)))
              (sorted_rows_frame_of _ Hs)) as [Hb _].
  rewrite col_t_frame_of in *.
  set (ai := searchsorted (map Seq.t table) (Some 0)) in *.
  replace (iloc (frame_of table) ai (Z.min (ai + 0) (len (frame_of table))))
    with (@nil (nat * Seq.row)); [reflexivity|].
  unfold iloc. rewrite !slice_bound_id by lia.
  replace (Z.min (ai + 0) (len (frame_of table)) - ai) with 0 by lia.
  reflexivity.
Qed.

(** ** The rows of the final table *)

Lemma for_each_Forall_In {A B : Type} (f : A -> outcome (list B))
    (P : A -> B -> Prop) (xs : list A) :
  (forall x ys, In x xs -> f x = Ret ys -> Forall (P x) ys) ->
  forall zs, for_each f xs = Ret zs ->
             Forall (fun z => exists x, In x xs /\ P x z) zs.
Proof.
  induction xs as [|x xs IH]; intros Hf zs H; cbn [for_each] in H.
  - injection H as <-. constructor.
  - inv_bind H as ys Hys. inv_bind H as zs' Hzs. injection H as <-.
    apply Forall_app. split.
    + eapply Forall_impl; [|apply (Hf x ys (or_introl eq_refl) Hys)].
      intros z Hz. exists x. split; [now left|assumption].
    + eapply Forall_impl; [|apply IH; [|exact Hzs]].
      * intros z (x' & Hx' & Hz). exists x'. split; [now right|assumption].
      * intros x' ys' Hx'. apply Hf. now right.
Qed.

Lemma fold_left_min_spec (l : list Z) : forall x,
  (fold_left Z.min l x = x \/ In (fold_left Z.min l x) l) /\
  fold_left Z.min l x <= x /\
  (forall y, In y l -> fold_left Z.min l x <= y).
Proof.
  induction l as [|a l IH]; intros x; cbn [fold_left].
  - repeat split; [now left|lia|contradiction].
  - destruct (IH (Z.min x a)) as (Hin & Hle & Hall). repeat split.
    + destruct Hin as [Hin|Hin]; [|right; now right].
      rewrite Hin.
      destruct (Z.min_spec x a) as [[_ E]|[_ E]]; rewrite E.
      * now left.
      * right. now left.
    + lia.
    + intros y [->|Hy]; [lia|auto].
Qed.

Lemma dropna_date_In (l : list (option Z)) (d : Z) :
  In d (dropna_date l) <-> In (Some d) l.
Proof.
  induction l as [|[x|] l IH]; simpl; [tauto| |].
  - rewrite IH. split; intros [H|H]; auto; left; congruence.
  - rewrite IH. split; [auto|]. intros [H|H]; [discriminate|auto].
Qed.

(** [minDate] is the earliest date of the table. *)
Lemma min_date_Ret (table : list Seq.row) (minDate : Z) :
  min_date table = Ret minDate ->
  In (Some minDate) (map Seq.date table) /\
  (forall d, In (Some d) (map Seq.date table) -> minDate <= d).
Proof.
  unfold min_date. intros H.
  destruct (dropna_date (map Seq.date table)) as [|x l] eqn:E; [discriminate|].
  injection H as <-.
  destruct (fold_left_min_spec l x) as (Hin & Hle & Hall). split.
  - apply dropna_date_In. rewrite E.
    destruct Hin as [->|Hin]; [now left|now right].
  - intros d Hd. apply dropna_date_In in Hd. rewrite E in Hd.
    destruct Hd as [<-|Hd]; [assumption|auto].
Qed.

Lemma emit_row_two_sequences (label : string) (b : DataFrame) (x : Bin.row) :
  emit_row label b = Ret x ->
  has_nan x = false -> 2 <= Bin.sampleSize (Bin.attributes x).
Proof.
  intros Hx Hnan. apply emit_row_Ret in Hx. destruct Hx as [Hx _].
  apply infer_bin_attributes_fields in Hx.
  destruct Hx as (from_t & to_t & mean & _ & _ & _ & _ & Hsd & HN & _).
  unfold has_nan in Hnan. apply orb_false_iff in Hnan. destruct Hnan as [Hnan _].
  rewrite Hsd in Hnan. unfold pd_std in Hnan.
  destruct (Z.leb_spec (Z.of_nat (length (dropna_t (col_t b)))) 1);
    [discriminate|].
  assert (Hlen : (length (dropna_t (col_t b)) <= length b)%nat).
  { unfold col_t. clear. induction b as [|[i [[z|] d s]] b IH]; simpl; lia. }
  rewrite HN. unfold len. lia.
Qed.

(** X13. Every row of the final table comes from a bin of two sequences or
    more, carries the label of one of the widths or of one of the sizes
    asked for, and is dated [t] days after [minDate], the earliest date of
    the input table. *)
Theorem final_table_rows (fuel : nat) (table : list Seq.row)
    (seqs_per_bin days_per_bin : list Z) (final : list Res.row) :
  calculate_phi_per_bin fuel table seqs_per_bin days_per_bin = Ret final ->
  exists minDate,
    In (Some minDate) (map Seq.date table) /\
    (forall d, In (Some d) (map Seq.date table) -> minDate <= d) /\
    Forall (fun r =>
              Res.date r = Bin.t (Bin.attributes (Res.bin r)) + minDate /\
              2 <= Res.sampleSize r /\
              ((exists w, In w days_per_bin /\
                  Bin.binning (Res.bin r) = ("eq_days_" ++ str w)%string) \/
               (exists s, In s seqs_per_bin /\
                  Bin.binning (Res.bin r) = ("eq_size_" ++ str s)%string)))
           final.
Proof.
  intros H. apply calculate_phi_per_bin_Ret in H.
  destruct H as (minDate & all & Hmin & Hall & _ & ->).
  exists minDate. destruct (min_date_Ret _ _ Hmin) as [Hin Hle].
  split; [assumption|]. split; [assumption|].
  assert (Hsize : Forall (fun x => has_nan x = false ->
                                   2 <= Bin.sampleSize (Bin.attributes x)) all).
  { eapply concat_results_Forall; [|exact Hall].
    intros label b x. apply emit_row_two_sequences. }
  assert (Hlabel :
            Forall (fun x =>
                      (exists w, In w days_per_bin /\
                         Bin.binning x = ("eq_days_" ++ str w)%string) \/
                      (exists s, In s seqs_per_bin /\
                         Bin.binning x = ("eq_size_" ++ str s)%string)) all).
  { unfold concat_results in Hall.
    inv_bind Hall as by_days Hd. inv_bind Hall as by_size Hsz.
    injection Hall as <-. apply Forall_app. split.
    - eapply Forall_impl; [|eapply for_each_Forall_In; [|exact Hd]].
      + intros x Hx. left. exact Hx.
      + intros w ys _ Hys. cbv beta.
        eapply binning_equal_days_Forall; [|exact Hys].
        intros b x Hx. now apply emit_row_Ret in Hx.
    - eapply Forall_impl; [|eapply for_each_Forall_In; [|exact Hsz]].
      + intros x Hx. right. exact Hx.
      + intros s ys _ Hys. cbv beta.
        eapply binning_equal_size_Forall; [|exact Hys].
        intros b x Hx. now apply emit_row_Ret in Hx. }
  apply Forall_forall. intros r Hr.
  apply (Permutation_in _ (sort_values_perm _)) in Hr.
  apply in_map_iff in Hr. destruct Hr as (x & <- & Hx).
  unfold dropna in Hx. apply filter_In in Hx. destruct Hx as [Hx Hnan].
  apply negb_true_iff in Hnan.
  rewrite Forall_forall in Hsize, Hlabel.
  split; [reflexivity|]. split; [|exact (Hlabel x Hx)].
  exact (Hsize x Hx Hnan).
Qed.

End Binning.


(** ** Sorting by insertion rearranges the rows *)

Section InsertionSort.

Variable before : Z -> Z -> bool.

Lemma insert_row_perm (x : Res.row) (l : list Res.row) :
  Permutation (insert_row before x l) (x :: l).
Proof.
  induction l as [|y l IH]; cbn [insert_row]; [reflexivity|].
  destruct (before (Res.date x) (Res.date y)); [reflexivity|].
  rewrite IH. apply perm_swap.
Qed.

Lemma insertion_sort_perm (l : list Res.row) :
  Permutation (insertion_sort before l) l.
Proof.
  induction l as [|x l IH]; cbn [insertion_sort fold_right]; [reflexivity|].
  fold (insertion_sort before l). rewrite insert_row_perm. now constructor.
Qed.

End InsertionSort.

Lemma leb_sort_perm (l : list Res.row) : Permutation (insertion_sort Z.leb l) l.
Proof. apply insertion_sort_perm. Qed.

(** ** The theorems at work *)

Lemma ordered_three_days : ordered_by_t three_days.
Proof. repeat constructor. Defined.

Lemma ordered_five_sequences : ordered_by_t five_sequences.
Proof. repeat constructor. Defined.

(** C3 at the rates (0, 3) and (8, 3). *)
Lemma optim_guards_witness :
  optim minimiser_x0 (Num 0) (Num (3 # 1)) = Ret (Num 0) /\
  optim minimiser_x0 (Num (8 # 1)) (Num (3 # 1)) = Ret NaN.
Proof.
  split.
  - apply (optim_guards minimiser_x0 (Num 0) (Num (3 # 1))). left. reflexivity.
  - apply (optim_guards minimiser_x0 (Num (8 # 1)) (Num (3 # 1))); reflexivity.
Defined.

(** C8 on the five sequences taken as one bin, of three days. *)
Lemma infer_bin_attributes_invariant_witness :
  exists a,
    infer_bin_attributes minimiser_x0 (frame_of five_sequences) = Ret a /\
    1 <= Bin.daysPerBin a /\
    Bin.haplotypes a <= Bin.sampleSize a /\
    Bin.num_mut a <= Bin.sampleSize a.
Proof.
  destruct (infer_bin_attributes_invariant minimiser_x0 (frame_of five_sequences))
    as [Hret Hinv].
  destruct Hret as [a Ha].
  - exists 0. vm_compute. auto.
  - intros h m. exists (Num 1). reflexivity.
  - exists a. split; [exact Ha|].
    destruct (Hinv a Ha) as (Hd & Hh & Hm).
    split; [apply Hd; vm_compute; reflexivity|]. split; assumption.
Defined.

(** C6 on the five sequences: the variance of 0, 0, 0, 1, 2 is 4/5. *)
Lemma t_sd_sample_sd_witness :
  exists a q,
    infer_bin_attributes minimiser_x0 (frame_of five_sequences) = Ret a /\
    Bin.t_sd a = SdSqrt q /\
    (q == sample_variance (dropna_t (col_t (frame_of five_sequences))))%Q.
Proof.
  destruct (t_sd_sample_sd minimiser_x0 (frame_of five_sequences))
    as (Hsd & _ & Hvar).
  destruct Hvar as (q & Hq & Hv); [vm_compute; lia|].
  eexists. exists q. split; [vm_compute; reflexivity|].
  split; [|exact Hv]. rewrite <- Hq. apply Hsd. vm_compute. reflexivity.
Defined.

(** C5 on a width-based and on a size-based run. *)
Lemma binning_labels_witness :
  exists by_days by_size,
    binning_equal_days minimiser_x0 4 three_days 1 = Ret by_days /\
    binning_equal_size minimiser_x0 4 five_sequences 3 = Ret by_size /\
    Forall (fun r => Bin.binning r = "eq_days_1"%string) by_days /\
    Forall (fun r => Bin.binning r = "eq_size_3"%string) by_size.
Proof.
  do 2 eexists. split; [vm_compute; reflexivity|].
  split; [vm_compute; reflexivity|].
  destruct (binning_labels minimiser_x0 4 three_days 1 3) as [Hd _].
  destruct (binning_labels minimiser_x0 4 five_sequences 1 3) as [_ Hs].
  split; [apply Hd|apply Hs]; vm_compute; reflexivity.
Defined.

(** What [dropna] keeps of the rows of [two_then_one] by days: the row of
    day 0, of two sequences, and not the row of day 1, of one. *)
Lemma dropna_exact_witness :
  exists final all,
    calculate_phi_per_bin minimiser_x0 (insertion_sort Z.leb) 6 two_then_one [] [1]
      = Ret final /\
    concat_results minimiser_x0 6 two_then_one [] [1] = Ret all /\
    Forall (fun r => is_nan (Res.phi r) = false) final /\
    (forall b, In b all ->
       (In b (map Res.bin final) <->
        is_nan (Bin.phi (Bin.attributes b)) = false /\
        sd_is_nan (Bin.t_sd (Bin.attributes b)) = false)).
Proof.
  eexists.
  match goal with |- exists all, ?e = Ret ?f /\ _ =>
    assert (Hf : e = Ret f) by (vm_compute; reflexivity) end.
  destruct (dropna_exact minimiser_x0 (insertion_sort Z.leb) leb_sort_perm
              6 two_then_one [] [1] _ Hf) as (all & Hall & H1 & H2).
  exists all. auto.
Defined.

(** C9 on the same run: two rows, of two sequences each. *)
Lemma final_table_no_nan_witness :
  exists final,
    calculate_phi_per_bin minimiser_x0 (insertion_sort Z.leb) 6 two_on_day_0 [] [1; 2]
      = Ret final /\
    final <> [] /\
    Forall (fun r => is_nan (Res.phi r) = false /\
                     sd_is_nan (Res.t_sd r) = false /\
                     Res.sampleSize r <> 1) final.
Proof.
  eexists. split; [vm_compute; reflexivity|]. split; [discriminate|].
  apply (final_table_no_nan minimiser_x0 (insertion_sort Z.leb) leb_sort_perm
           6 two_on_day_0 [] [1; 2]).
  vm_compute. reflexivity.
Defined.

(** The bins of three days for a width of one day: the cut is at day 2. *)
Lemma equal_days_bins_partition_witness :
  exists (min_t max_t : Z) (n : nat),
    py_min (map Seq.t three_days) = Ret (Some min_t) /\
    py_max (map Seq.t three_days) = Ret (Some max_t) /\
    (forall z, In (Some z) (map Seq.t three_days) -> min_t <= z <= max_t) /\
    let cut := min_t + Z.of_nat n * 1 in
    let bins := windows (frame_of three_days) 1 min_t n in
    cut <= max_t <= cut + 1 - 1 /\
    (forall fuel, (n < fuel)%nat -> equal_days_bins fuel three_days 1 = Ret bins) /\
    NoDup (labels (concat bins)) /\
    (forall row, In row (concat bins) <->
       In row (frame_of three_days) /\
       exists z, Seq.t (snd row) = Some z /\ z < cut).
Proof.
  apply (equal_days_bins_partition three_days 1).
  - exact ordered_three_days.
  - exists 0. simpl. auto.
  - lia.
Defined.




(** The snapping to a day makes a bin larger than the size asked for: by
    two, the first bin of the five sequences is the whole of day 0. *)
Lemma equal_size_snap_grows :
  exists b bins,
    equal_size_bins 4 five_sequences 2 = Ret (b :: bins) /\ len b = 3.
Proof. do 2 eexists. split; [vm_compute; reflexivity|reflexivity]. Qed.


(** ** The further properties at work *)

(** X1 at the rates (8, 3), guarded, and (1, 3), not guarded. *)
Lemma estimators_guards_witness :
  (optim minimiser_x0 (Num (8 # 1)) (Num (3 # 1))
   = optim_2 minimiser_2 (Num (8 # 1)) (Num (3 # 1)) /\
   optim_2 minimiser_2 (Num (8 # 1)) (Num (3 # 1))
   = optim_3 minimiser_3 (Num (8 # 1)) (Num (3 # 1))) /\
  (optim minimiser_x0 (Num (1 # 1)) (Num (3 # 1)) = Ret (Num 1) /\
   optim_2 minimiser_2 (Num (1 # 1)) (Num (3 # 1)) = Ret (Num (2 # 1)) /\
   optim_3 minimiser_3 (Num (1 # 1)) (Num (3 # 1)) = Ret (Num (3 # 1))).
Proof.
  split.
  - destruct (estimators_guards minimiser_x0 minimiser_2 minimiser_3
                (Num (8 # 1)) (Num (3 # 1))) as (Hg & _ & _).
    destruct Hg as (H1 & H2 & _); [reflexivity|]. split; assumption.
  - destruct (estimators_guards minimiser_x0 minimiser_2 minimiser_3
                (Num (1 # 1)) (Num (3 # 1))) as (_ & Hm & _).
    apply Hm. reflexivity.
Defined.

(** X2 on the five sequences taken as one bin: two mutated sequences, three
    haplotypes. *)
Lemma bin_counts_witness :
  exists a,
    infer_bin_attributes minimiser_x0 (frame_of five_sequences) = Ret a /\
    1 <= Bin.sampleSize a /\
    0 <= Bin.num_mut a /\
    1 <= Bin.haplotypes a <= Bin.num_mut a + 1 /\
    0 <= Bin.n_mut_types a /\
    (Bin.num_mut a = 0 -> Bin.haplotypes a = 1 /\ Bin.n_mut_types a = 0).
Proof.
  eexists. split; [vm_compute; reflexivity|].
  apply (bin_counts minimiser_x0 (frame_of five_sequences)).
  vm_compute. reflexivity.
Defined.

(** X3 on three sequences of one mutated haplotype: the minimiser is called
    at the rates 1/3 and 1. *)
Lemma phi_by_counts_witness :
  exists a,
    infer_bin_attributes minimiser_x0 (frame_of one_haplotype) = Ret a /\
    Bin.haplotypes a < Bin.num_mut a /\
    minimiser_x0 (rate (Bin.haplotypes a) (Bin.daysPerBin a))
                 (rate (Bin.num_mut a) (Bin.daysPerBin a)) = Ret (Bin.phi a).
Proof.
  eexists. split; [vm_compute; reflexivity|].
  split; [vm_compute; reflexivity|].
  apply (phi_by_counts minimiser_x0 (frame_of one_haplotype)).
  - vm_compute. reflexivity.
  - vm_compute. reflexivity.
  - vm_compute. reflexivity.
Defined.

(** X4 on the five sequences: the days 0 to 2, rounded mean day 1. *)
Lemma bin_t_within_days_witness :
  exists a from_t,
    infer_bin_attributes minimiser_x0 (frame_of five_sequences) = Ret a /\
    pd_min (col_t (frame_of five_sequences)) = Some from_t /\
    from_t <= Bin.t a <= from_t + Bin.daysPerBin a - 1.
Proof.
  eexists.
  match goal with |- exists f, ?e = Ret ?a /\ _ =>
    assert (Ha : e = Ret a) by (vm_compute; reflexivity) end.
  destruct (bin_t_within_days minimiser_x0 _ _ Ha)
    as (from_t & Hmin & _ & _ & Ht & _); [vm_compute; reflexivity|].
  exists from_t. auto.
Defined.

(** X5 on two sequences without a date. *)
Lemma calculate_phi_per_bin_no_date_witness :
  calculate_phi_per_bin minimiser_x0 (insertion_sort Z.leb) 6 no_date [2] [1]
  = Raise ValueError.
Proof.
  apply calculate_phi_per_bin_no_date.
  intros r [<-|[<-|[]]]; reflexivity.
Defined.




(** X9 on the five sequences with a width of 2. *)
Lemma binning_equal_days_rows_witness :
  exists rows,
    binning_equal_days minimiser_x0 4 five_sequences 2 = Ret rows /\
    rows <> [] /\
    Forall (fun r =>
              1 <= Bin.daysPerBin (Bin.attributes r) <= 2 /\
              exists min_t k,
                py_min (map Seq.t five_sequences) = Ret (Some min_t) /\ 0 <= k /\
                min_t + k * 2 <= Bin.t (Bin.attributes r)
                <= min_t + k * 2 + 2 - 1) rows.
Proof.
  eexists. split; [vm_compute; reflexivity|]. split; [discriminate|].
  apply (binning_equal_days_rows minimiser_x0 4 five_sequences 2).
  - vm_compute. reflexivity.
  - vm_compute. reflexivity.
Defined.


Lemma ordered_before_day_0 : ordered_by_t before_day_0.
Proof. repeat constructor. Defined.

(** X11 on a table that starts two days before day 0, with a size of 2. *)
Lemma binning_equal_size_from_day_0_witness :
  exists bins rows,
    equal_size_bins 6 before_day_0 2 = Ret bins /\
    binning_equal_size minimiser_x0 6 before_day_0 2 = Ret rows /\
    bins <> [] /\
    Forall (Forall (fun r => forall z, Seq.t (snd r) = Some z -> 0 <= z)) bins /\
    Forall (fun r => 0 <= Bin.t (Bin.attributes r)) rows.
Proof.
  do 2 eexists. split; [vm_compute; reflexivity|].
  split; [vm_compute; reflexivity|]. split; [discriminate|].
  destruct (binning_equal_size_from_day_0 minimiser_x0 6 before_day_0 2
              ordered_before_day_0) as [Hb Hr].
  split; [apply Hb|apply Hr]; vm_compute; reflexivity.
Defined.

(** X12 on the five sequences. *)
Lemma binning_equal_size_zero_witness :
  binning_equal_size minimiser_x0 4 five_sequences 0 = Raise ValueError.
Proof.
  apply (binning_equal_size_zero minimiser_x0 3 five_sequences 2
           ordered_five_sequences).
  - reflexivity.
  - lia.
Defined.

(** X13 on the table with two sequences on day 0, for the size 2 and the
    widths 1 and 2. *)
Lemma final_table_rows_witness :
  exists final minDate,
    calculate_phi_per_bin minimiser_x0 (insertion_sort Z.leb) 6 two_on_day_0
      [2] [1; 2] = Ret final /\
    final <> [] /\
    In (Some minDate) (map Seq.date two_on_day_0) /\
    Forall (fun r =>
              Res.date r = Bin.t (Bin.attributes (Res.bin r)) + minDate /\
              2 <= Res.sampleSize r /\
              ((exists w, In w [1; 2] /\
                  Bin.binning (Res.bin r) = ("eq_days_" ++ str w)%string) \/
               (exists s, In s [2] /\
                  Bin.binning (Res.bin r) = ("eq_size_" ++ str s)%string)))
           final.
Proof.
  eexists.
  match goal with |- exists m, ?e = Ret ?f /\ _ =>
    assert (Hf : e = Ret f) by (vm_compute; reflexivity) end.
  destruct (final_table_rows minimiser_x0 (insertion_sort Z.leb) leb_sort_perm
              6 two_on_day_0 [2] [1; 2] _ Hf) as (minDate & Hin & _ & HF).
  exists minDate. split; [exact Hf|]. split; [discriminate|].
  split; [exact Hin|exact HF].
Defined.

(** ** Where the specification and the code part *)

(** C1.  The window that reaches [max(t)] is never formed.  On the table of
    the specification's end-to-end example, ten sequences on the days 0 to
    9: for the width 10 the guard [to_t < max(t)] fails at once, the frame
    is empty and the aggregation raises [KeyError]; for the width 5 the
    window [[0, 4]] is the only bin and the window [[5, 9]], a complete
    one, is left out.  The size-based binner, whose loop makes the same
    test, puts the sequences of the last days in a bin. *)
Theorem binning_equal_days_drops_last_window :
  binning_equal_days minimiser_x0 4 ten_days 10 = Ret [] /\
  calculate_phi_per_bin minimiser_x0 (insertion_sort Z.leb) 4 ten_days [] [10]
  = Raise KeyError /\
  (exists b,
     equal_days_bins 4 ten_days 5 = Ret [b] /\
     col_t b = [Some 0; Some 1; Some 2; Some 3; Some 4] /\
     ~ covers_valid_rows ten_days [b]) /\
  (exists bins,
     equal_size_bins 4 ten_days 5 = Ret bins /\
     covers_valid_rows ten_days bins).
Proof.
  split; [vm_compute; reflexivity|]. split; [vm_compute; reflexivity|]. split.
  - eexists. split; [vm_compute; reflexivity|]. split; [reflexivity|].
    intros H. specialize (H (9%nat, on_day 9 "m1")).
    assert (Hin : In (9%nat, on_day 9 "m1") (frame_of ten_days))
      by (do 9 right; left; reflexivity).
    specialize (H Hin ltac:(discriminate)).
    cbn [concat app] in H.
    repeat (destruct H as [H|H]; [discriminate H|]). exact H.
  - eexists. split; [vm_compute; reflexivity|].
    intros row Hin _. cbn [concat app].
    repeat (destruct Hin as [<-|Hin]; [auto 12 using in_eq, in_cons|]).
    contradiction.
Qed.

(** C2.  [dropna] removes a row whose [phi] is a number.  By days,
    [two_then_one] gives a row for the two sequences of day 0 and a row for
    the sequence of day 1, both with [phi = 0]; the second has a NaN
    [t_sd], and [dropna] removes it although its [phi] is not NaN. *)
Theorem dropna_drops_single_sequence_bins :
  exists all b final,
    concat_results minimiser_x0 6 two_then_one [] [1] = Ret all /\
    In b all /\ is_nan (Bin.phi (Bin.attributes b)) = false /\
    calculate_phi_per_bin minimiser_x0 (insertion_sort Z.leb) 6 two_then_one
      [] [1] = Ret final /\
    final <> [] /\ ~ In b (map Res.bin final).
Proof.
  do 3 eexists. split; [vm_compute; reflexivity|].
  split; [right; left; reflexivity|]. split; [reflexivity|].
  split; [vm_compute; reflexivity|]. split; [discriminate|].
  intros [H|[]]. discriminate H.
Qed.

(** C8 as the specification states it fails: for two sequences [2 ** 63]
    days apart the difference of the days wraps around, and [daysPerBin] is
    negative. *)
Lemma days_per_bin_wraps :
  exists a,
    infer_bin_attributes minimiser_x0 (frame_of far_apart) = Ret a /\
    (exists z, In (Some z) (col_t (frame_of far_apart))) /\
    Bin.daysPerBin a = - 9223372036854775807 /\
    ~ 1 <= Bin.daysPerBin a.
Proof.
  eexists. split; [vm_compute; reflexivity|].
  split; [exists (2 ^ 62); right; left; reflexivity|].
  split; [reflexivity|]. cbn [Bin.daysPerBin]. lia.
Qed.

(** Where the days wrap, [phi] no longer follows from the counts: with a
    negative [daysPerBin] the rates are negative, the haplotype rate is the
    larger one, and [phi] is NaN although there are fewer haplotypes than
    mutated sequences. *)
Lemma phi_nan_on_wrapped_days :
  exists a,
    infer_bin_attributes minimiser_x0 (frame_of far_apart_mutated) = Ret a /\
    span_fits_int64 (col_t (frame_of far_apart_mutated)) = false /\
    Bin.haplotypes a < Bin.num_mut a /\
    Bin.phi a = NaN.
Proof.
  eexists. split; [vm_compute; reflexivity|]. repeat split.
Qed.

(** Where the sum is not exact, the day of a bin can leave the bin: the
    mean of the single day [2 ** 53 + 1] is the float [2 ** 53], a day
    before the only day of the bin. *)
Lemma bin_t_before_its_day :
  exists a,
    infer_bin_attributes minimiser_x0 late_day_bin = Ret a /\
    sum_fits_float64 (col_t late_day_bin) = false /\
    pd_min (col_t late_day_bin) = Some (2 ^ 53 + 1) /\
    Bin.t a = 2 ^ 53.
Proof.
  eexists. split; [vm_compute; reflexivity|]. repeat split.
Qed.

(** C5 as the specification states it fails: the labels are not
    "fixed-width-<w>" and "fixed-size-<s>". *)
Lemma binning_labels_differ :
  exists by_days by_size,
    binning_equal_days minimiser_x0 4 three_days 1 = Ret by_days /\
    binning_equal_size minimiser_x0 4 five_sequences 3 = Ret by_size /\
    by_days <> [] /\ by_size <> [] /\
    Forall (fun r => Bin.binning r <> "fixed-width-1"%string) by_days /\
    Forall (fun r => Bin.binning r <> "fixed-size-3"%string) by_size.
Proof.
  do 2 eexists. split; [vm_compute; reflexivity|].
  split; [vm_compute; reflexivity|].
  repeat split; try discriminate; repeat constructor; discriminate.
Qed.

(** C6 as the specification states it fails: a bin of two sequences of the
    same day has one distinct [t], and its [t_sd] is 0, not NaN. *)
Lemma t_sd_zero_on_one_distinct_t :
  exists a,
    infer_bin_attributes minimiser_x0 same_day_bin = Ret a /\
    distinct_t same_day_bin = 1%nat /\
    Bin.t_sd a = SdSqrt 0.
Proof.
  eexists. split; [vm_compute; reflexivity|]. split; reflexivity.
Qed.

(** ** The order of the table *)

(** The order of the table is what the size-based binner rests on.  On
    [out_of_order] and for the size 2, the first bin is snapped to day 0 and
    takes the rows 0, 1 and 3; the bisection for day 1 then lands on row 2,
    and row 3 comes out a second time. *)
Lemma equal_size_bins_out_of_order :
  exists bins,
    equal_size_bins 5 out_of_order 2 = Ret bins /\
    map labels bins = [[0; 1; 3]; [2; 3]; [4; 5]]%nat /\
    ~ NoDup (labels (concat bins)).
Proof.
  eexists. split; [vm_compute; reflexivity|]. split; [reflexivity|].
  cbn. intros H.
  apply NoDup_cons_iff in H. destruct H as [_ H].
  apply NoDup_cons_iff in H. destruct H as [_ H].
  apply NoDup_cons_iff in H. destruct H as [H _].
  apply H. right. left. reflexivity.
Qed.
